(** * Atlantis: configuration validation, the apply step and the lock arena

    A shallow embedding of
    - [server/events/yaml]: [ParserValidator] ([ReadConfig], [HasConfigFile],
      [parseAndValidate], [validateProjectNames], [validateWorkflows],
      [validateWorkflowExists]);
    - [server/events/runtime/apply_step_runner.go]: [ApplyStepRunner.Run];
    - [cmd/server.go]: the flag tables and [ServerCmd] ([Init]'s flag loops,
      [preRun], [run], [setDefaults], [validate], [setAtlantisURL],
      [setDataDir], [trimAtSymbolFromUsers], [securityWarnings],
      [withErrPrint]);
    - the lock manager, which has no source file here and is modelled from
      the specification.

    Go values are embedded as follows.  A [string] is a Rocq [string] (a
    sequence of bytes), a [[]byte] is a [list Byte.byte], a slice is a [list]
    (nil and the empty slice coincide), a pointer that is only tested
    against nil and dereferenced is an [option], a [map[string]T] is a
    [gmap string T], and a returned [error] is an [option error] with
    [None] for nil. *)

From Stdlib Require Import Ascii String List Lia.
From stdpp Require Import base option list strings pretty gmap fin_maps.

Open Scope string_scope.

(** ** Go library values *)

Module Go.

(** The [errno] values the file-system model can produce. *)
Inductive Errno := ENOENT | EACCES | ENOTDIR | EISDIR | EIO.

Definition Errno_Error (e : Errno) : string :=
  match e with
  | ENOENT => "no such file or directory"
  | EACCES => "permission denied"
  | ENOTDIR => "not a directory"
  | EISDIR => "is a directory"
  | EIO => "input/output error"
  end.

(** The dynamic types of the [error] values that flow through the
    embedded code:
    - [errorString]: what [fmt.Errorf] and [errors.New] build;
    - [PathError]: [*os.PathError], returned by [os.Stat] and
      [ioutil.ReadFile];
    - [withMessage]: what [errors.Wrapf] of github.com/pkg/errors builds
      around a cause;
    - [libError]: an error value of a library type (yaml.v2,
      ozzo-validation), known only by its message. *)
Inductive error :=
| errorString (s : string)
| PathError (Op Path : string) (Err : Errno)
| withMessage (cause : error) (msg : string)
| libError (msg : string).

(** The [Error()] method. *)
Fixpoint Error (e : error) : string :=
  match e with
  | errorString s => s
  | PathError op path err => op +:+ " " +:+ path +:+ ": " +:+ Errno_Error err
  | withMessage cause msg => msg +:+ ": " +:+ Error cause
  | libError msg => msg
  end.

(** [os.IsNotExist]: looks through a [*PathError] and compares the
    underlying error with [ENOENT]; it does not look through the
    wrappers of pkg/errors. *)
Definition os_IsNotExist (err : option error) : bool :=
  match err with
  | Some (PathError _ _ ENOENT) => true
  | _ => false
  end.

(** The comparisons [err != nil] and [err == nil]. *)
Definition notnil {A} (p : option A) : bool :=
  match p with Some _ => true | None => false end.

Definition isnil {A} (p : option A) : bool := negb (notnil p).

(** [errors.Wrapf(err, format, args...)]: nil for a nil [err], otherwise
    the cause annotated with the formatted message. *)
Definition errors_Wrapf (err : option error) (msg : string) : option error :=
  match err with
  | None => None
  | Some e => Some (withMessage e msg)
  end.

(** Library functions the code calls and whose text is not part of the
    repository: [strconv.Quote] (the [%q] verb of [fmt]) and
    [filepath.Join] (on two elements). *)
Class Lib := {
  strconv_Quote : string -> string;
  filepath_Join : string -> string -> string
}.

(** *** File system *)

(** What resolving a path finds: a failure of the resolution itself, a
    directory, or a file with its content and whether this process may
    open it for reading. *)
Inductive Lookup :=
| LFail (e : Errno)
| LDir
| LFile (data : list Byte.byte) (readable : bool).

Definition FileSystem := string -> Lookup.

Record FileInfo := { IsDir : bool }.

(** [os.Stat]. *)
Definition os_Stat (fs : FileSystem) (name : string) : option FileInfo * option error :=
  match fs name with
  | LFail e => (None, Some (PathError "stat" name e))
  | LDir => (Some {| IsDir := true |}, None)
  | LFile _ _ => (Some {| IsDir := false |}, None)
  end.

(** [ioutil.ReadFile]. *)
Definition ioutil_ReadFile (fs : FileSystem) (name : string) : list Byte.byte * option error :=
  match fs name with
  | LFail e => ([], Some (PathError "open" name e))
  | LDir => ([], Some (PathError "read" name EISDIR))
  | LFile data true => (data, None)
  | LFile _ false => ([], Some (PathError "open" name EACCES))
  end.

(** [*version.Version] of hashicorp/go-version, kept as its original
    text: the code only passes it on. *)
Definition Version := string.

End Go.

(** ** The configuration structures *)

(** The declarations of the packages [raw] and [valid] are not among the
    source files.  Every field the embedded functions read ([Projects],
    [Workflows], [Workflow], [Dir], [Workspace], [Name],
    [TerraformVersion]) keeps the name and the type the code uses it at;
    the field [Workflow] of a project is written [Workflow_ref], the name
    [Workflow] being the type of a workflow. *)

Module raw.

(** Modelled from the spec: the declaration of [raw.Workflow] is missing;
    a workflow is an ordered sequence of steps. *)
Definition Workflow := list string.

(** Modelled from the spec: the declaration of [raw.Project] is missing;
    a project of the configuration file has a directory, a workspace, an
    optional name, an optional terraform version and an optional workflow
    reference, each of them possibly absent before validation. *)
Record Project := {
  Name : option string;
  Dir : option string;
  Workspace : option string;
  Workflow_ref : option string;
  TerraformVersion : option string
}.

(** Modelled from the spec: the declaration of [raw.Config] is missing;
    a configuration is a list of projects and a mapping from workflow names
    to workflows. *)
Record Config := {
  Projects : list Project;
  Workflows : gmap string Workflow
}.

End raw.

Module valid.

(** Modelled from the spec: the declaration of [valid.Workflow] is
    missing; a workflow is an ordered sequence of steps. *)
Definition Workflow := list string.

(** Modelled from the spec: the declaration of [valid.Project] is
    missing; a validated project has a directory and a workspace, and
    optionally a name, a workflow reference and a terraform version. *)
Record Project := {
  Dir : string;
  Workspace : string;
  Name : option string;
  Workflow_ref : option string;
  TerraformVersion : option Go.Version
}.

(** Modelled from the spec: the declaration of [valid.Config] is missing;
    a validated configuration is a list of projects and a mapping from
    workflow names to workflows. *)
Record Config := {
  Projects : list Project;
  Workflows : gmap string Workflow
}.

(** The composite literal [valid.Config{}]. *)
Definition zero : Config := {| Projects := []; Workflows := ∅ |}.

End valid.

(** ** Package yaml: the parser and validator *)

Module yaml.
Import Go.

(** Functions [parseAndValidate] calls and whose text is not among the
    source files: [yaml.UnmarshalStrict] into a [raw.Config], the method
    [raw.Config.Validate] (ozzo-validation, which names fields after the
    struct tag held in the package variable [validation.ErrorTag]) and the
    method [raw.Config.ToValid]. *)
Class Deps := {
  yaml_UnmarshalStrict : list Byte.byte -> raw.Config * option error;
  raw_Validate : string -> raw.Config -> option error;
  raw_ToValid : raw.Config -> valid.Config
}.

Section ParserValidator.
Context `{L : Lib} `{D : Deps}.

Definition configFilePath (repoDir repoConfig : string) : string :=
  filepath_Join repoDir repoConfig.

(** [for k := range workflows { if k == workflow { return nil } }]
    over the keys in the order the iteration yields them; [true] stands
    for the [return nil] inside the loop. *)
Fixpoint rangeFindKey (keys : list string) (workflow : string) : bool :=
  match keys with
  | [] => false
  | k :: rest => if decide (k = workflow) then true else rangeFindKey rest workflow
  end.

Definition validateWorkflowExists (project : raw.Project)
    (workflows : gmap string raw.Workflow) : option error :=
  match raw.Workflow_ref project with
  | None => None
  | Some workflow =>
      if rangeFindKey (map_to_list workflows).*1 workflow then None
      else Some (errorString ("workflow " +:+ strconv_Quote workflow +:+ " is not defined"))
  end.

(** The loop of [validateWorkflows] over [config.Projects]. *)
Fixpoint validateWorkflows_loop (projects : list raw.Project)
    (workflows : gmap string raw.Workflow) : option error :=
  match projects with
  | [] => None
  | project :: rest =>
      match validateWorkflowExists project workflows with
      | Some err => Some err
      | None => validateWorkflows_loop rest workflows
      end
  end.

Definition validateWorkflows (config : raw.Config) : option error :=
  validateWorkflows_loop (raw.Projects config) (raw.Workflows config).

(** First loop of [validateProjectNames]; [seen] is the map of the
    names met so far, a missing key reading as [false]. *)
Fixpoint uniqueNames_loop (projects : list valid.Project)
    (seen : gmap string bool) : option error :=
  match projects with
  | [] => None
  | project :: rest =>
      match valid.Name project with
      | Some name =>
          let exists_ := default false (seen !! name) in
          if exists_ then
            Some (errorString ("found two or more projects with name "
                    +:+ strconv_Quote name +:+ "; project names must be unique"))
          else uniqueNames_loop rest (<[name := true]> seen)
      | None => uniqueNames_loop rest seen
      end
  end.

(** [fmt.Sprintf("%s/%s", project.Dir, project.Workspace)]. *)
Definition dirWorkspaceKey (project : valid.Project) : string :=
  valid.Dir project +:+ "/" +:+ valid.Workspace project.

(** Second loop of [validateProjectNames]; a missing key of
    [dirWorkspaceToNames] reads as the nil slice. *)
Fixpoint allNamed_loop (projects : list valid.Project)
    (dirWorkspaceToNames : gmap string (list string)) : option error :=
  match projects with
  | [] => None
  | project :: rest =>
      let key := dirWorkspaceKey project in
      let names := default [] (dirWorkspaceToNames !! key) in
      if (0 <? List.length names)%nat && isnil (valid.Name project) then
        Some (errorString ("there are two or more projects with dir: "
                +:+ strconv_Quote (valid.Dir project) +:+ " workspace: "
                +:+ strconv_Quote (valid.Workspace project)
                +:+ " that are not all named; they must have a 'name' key so they can be targeted for apply's separately"))
      else
        let name := match valid.Name project with
                    | Some n => n
                    | None => EmptyString
                    end in
        allNamed_loop rest
          (<[key := (default [] (dirWorkspaceToNames !! key) ++ [name])%list]> dirWorkspaceToNames)
  end.

Definition validateProjectNames (config : valid.Config) : option error :=
  match uniqueNames_loop (valid.Projects config) ∅ with
  | Some err => Some err
  | None => allNamed_loop (valid.Projects config) ∅
  end.

(** [parseAndValidate]; the package variable [validation.ErrorTag] is
    threaded through as a state. *)
Definition parseAndValidate (configData : list Byte.byte) (ErrorTag : string)
    : (valid.Config * option error) * string :=
  match yaml_UnmarshalStrict configData with
  | (_, Some err) => ((valid.zero, Some err), ErrorTag)
  | (rawConfig, None) =>
      let ErrorTag := "yaml" in
      match raw_Validate ErrorTag rawConfig with
      | Some err => ((valid.zero, Some err), ErrorTag)
      | None =>
          match validateWorkflows rawConfig with
          | Some err => ((valid.zero, Some err), ErrorTag)
          | None =>
              let validConfig := raw_ToValid rawConfig in
              match validateProjectNames validConfig with
              | Some err => ((valid.zero, Some err), ErrorTag)
              | None => ((validConfig, None), ErrorTag)
              end
          end
      end
  end.

Definition ReadConfig (fs : FileSystem) (repoDir repoConfig : string) (ErrorTag : string)
    : (valid.Config * option error) * string :=
  let configFile := configFilePath repoDir repoConfig in
  let '(configData, err) := ioutil_ReadFile fs configFile in
  if notnil err && os_IsNotExist err then
    ((valid.zero, err), ErrorTag)
  else if notnil err then
    ((valid.zero, errors_Wrapf err ("unable to read " +:+ repoConfig +:+ " file")), ErrorTag)
  else
    let '((config, err), ErrorTag) := parseAndValidate configData ErrorTag in
    if notnil err then
      ((valid.zero, errors_Wrapf err ("parsing " +:+ repoConfig)), ErrorTag)
    else ((config, err), ErrorTag).

Definition HasConfigFile (fs : FileSystem) (repoDir repoConfig : string)
    : bool * option error :=
  let '(_, err) := os_Stat fs (configFilePath repoDir repoConfig) in
  if os_IsNotExist err then (false, None)
  else if isnil err then (true, None)
  else (false, err).

End ParserValidator.

End yaml.

(** ** Package runtime: the apply step *)

Module runtime.
Import Go.

(** [*logging.SimpleLogger], identified by its source tag. *)
Record SimpleLogger := { Source : string }.

(** Modelled from the spec: the declaration of
    [models.ProjectCommandContext] is not among the source files; these
    are the fields [ApplyStepRunner.Run] reads, at the types it uses them
    at. *)
Record ProjectCommandContext := {
  RepoRelDir : string;
  Workspace : string;
  ProjectConfig : option valid.Project;
  CommentArgs : list string;
  Log : SimpleLogger
}.

(** What [Run] does to the outside world, in the order it does it: a call
    of the executor's [RunCommandWithVersion] with its five arguments, or
    a line written through the context's logger. *)
Inductive Event :=
| ExecCall (log : SimpleLogger) (path : string) (args : list string)
           (v : option Version) (workspace : string)
| LogInfo (log : SimpleLogger) (msg : string).

(** The interface [TerraformExec].  The external process answers from
    the call's arguments and from everything that happened before. *)
Record TerraformExec := {
  RunCommandWithVersion :
    list Event -> SimpleLogger -> string -> list string -> option Version -> string
    -> string * option error
}.

Record ApplyStepRunner := { TerraformExecutor : TerraformExec }.

(** [GetPlanFilename] belongs to this package, in a file that is not
    among the sources; [Run] only joins its result to the working path. *)
Class Deps := {
  GetPlanFilename : string -> option valid.Project -> string
}.

(** Computations that append to the trace of events. *)
Definition M (A : Type) : Type := list Event -> A * list Event.

Definition ret {A} (a : A) : M A := fun tr => (a, tr).

Definition bind {A B} (m : M A) (k : A -> M B) : M B :=
  fun tr => let '(a, tr') := m tr in k a tr'.

Definition emit (e : Event) : M unit := fun tr => (tt, (tr ++ [e])%list).

Definition history : M (list Event) := fun tr => (tr, tr).

#[export] Instance M_ret : MRet M := @ret.
#[export] Instance M_bind : MBind M := fun A B k m => bind m k.

(** A call through the interface value: the call is recorded, the
    answer is the executor's. *)
Definition call_RunCommandWithVersion (exec : TerraformExec)
    (log : SimpleLogger) (path : string) (args : list string)
    (v : option Version) (workspace : string) : M (string * option error) :=
  past ← history;
  emit (ExecCall log path args v workspace);;
  mret (RunCommandWithVersion exec past log path args v workspace).

Definition Log_Info (log : SimpleLogger) (msg : string) : M unit :=
  emit (LogInfo log msg).

Section ApplyStepRunner.
Context `{L : Lib} `{D : Deps}.

Definition Run (a : ApplyStepRunner) (fs : FileSystem)
    (ctx : ProjectCommandContext) (extraArgs : list string) (path : string)
    : M (string * option error) :=
  let planPath := filepath_Join path (GetPlanFilename (Workspace ctx) (ProjectConfig ctx)) in
  let '(stat, err) := os_Stat fs planPath in
  if notnil err || match stat with Some st => IsDir st | None => true end then
    mret (EmptyString,
         Some (errorString ("no plan found at path " +:+ strconv_Quote (RepoRelDir ctx)
                 +:+ " and workspace " +:+ strconv_Quote (Workspace ctx)
                 +:+ " – did you run plan?")))
  else
    let tfApplyCmd :=
      (((("apply" :: "-input=false" :: "-no-color" :: nil) ++ extraArgs)
          ++ CommentArgs ctx) ++ (strconv_Quote planPath :: nil))%list in
    let tfVersion : option Version :=
      match ProjectConfig ctx with
      | Some cfg =>
          match valid.TerraformVersion cfg with
          | Some v => Some v
          | None => None
          end
      | None => None
      end in
    '(out, tfErr) ← call_RunCommandWithVersion (TerraformExecutor a)
                       (Log ctx) path tfApplyCmd tfVersion (Workspace ctx);
    (if isnil tfErr then Log_Info (Log ctx) "apply successful" else mret tt);;
    mret (out, tfErr).

End ApplyStepRunner.

End runtime.

(** ** The lock manager *)

Module locking.

(** Modelled from the spec: the lock manager has no source file here.
    Following the spec, a lock is the ownership of a
    (repoFullName, projectPath, workspace) tuple by one pull request, with
    its acquisition time; the manager keeps an arena of lock records and
    its operations are atomic against that arena.  [TryAcquire] creates a
    lock on a free tuple, re-affirms (does not duplicate) the lock of the
    pull request that holds it, and denies any other pull request, naming
    the holder; [Release] removes the caller's own lock;
    [ReleaseAllForPullRequest] removes every lock of one pull request. *)
Record Tuple := {
  repoFullName : string;
  projectPath : string;
  workspace : string
}.

#[export] Instance Tuple_eq_dec : EqDecision Tuple.
Proof. solve_decision. Defined.

Record Lock := {
  key : Tuple;
  pull : nat;
  time : nat
}.

Definition Arena := list Lock.

Inductive AcquireResult :=
| Acquired
| AlreadyHeldBySelf
| DeniedHeldByOther (holder : nat).

Inductive ReleaseResult := Released | NotHeld.

(** Modelled from the spec: the lock record indexed by a tuple key. *)
Definition lookup_lock (t : Tuple) (arena : Arena) : option Lock :=
  List.find (fun l => bool_decide (key l = t)) arena.

(** Modelled from the spec: [TryAcquire(tuple, pullRequestID)]. *)
Definition TryAcquire (t : Tuple) (p : nat) (now : nat) (arena : Arena)
    : AcquireResult * Arena :=
  match lookup_lock t arena with
  | None => (Acquired, (arena ++ [{| key := t; pull := p; time := now |}])%list)
  | Some l =>
      if bool_decide (pull l = p) then (AlreadyHeldBySelf, arena)
      else (DeniedHeldByOther (pull l), arena)
  end.

(** Modelled from the spec: [Release(tuple, pullRequestID)]. *)
Definition Release (t : Tuple) (p : nat) (arena : Arena) : ReleaseResult * Arena :=
  match lookup_lock t arena with
  | Some l =>
      if bool_decide (pull l = p)
      then (Released, List.filter (fun l' => negb (bool_decide (key l' = t))) arena)
      else (NotHeld, arena)
  | None => (NotHeld, arena)
  end.

(** Modelled from the spec: [ReleaseAllForPullRequest(pullRequestID)]. *)
Definition ReleaseAllForPullRequest (p : nat) (arena : Arena) : Arena :=
  List.filter (fun l => negb (bool_decide (pull l = p))) arena.

(** Modelled from the spec: callers run concurrently and the manager is
    linearizable, so an execution is a sequence of atomic operations, in
    the order in which they take effect; every interleaving of the
    callers is one such sequence. *)
Inductive Op :=
| OpTryAcquire (t : Tuple) (p : nat) (now : nat)
| OpRelease (t : Tuple) (p : nat)
| OpReleaseAll (p : nat).

Inductive Response :=
| RAcquire (r : AcquireResult)
| RRelease (r : ReleaseResult)
| RReleaseAll.

Definition step (op : Op) (arena : Arena) : Response * Arena :=
  match op with
  | OpTryAcquire t p now => let '(r, a) := TryAcquire t p now arena in (RAcquire r, a)
  | OpRelease t p => let '(r, a) := Release t p arena in (RRelease r, a)
  | OpReleaseAll p => (RReleaseAll, ReleaseAllForPullRequest p arena)
  end.

Fixpoint run (ops : list Op) (arena : Arena) : list Response * Arena :=
  match ops with
  | [] => ([], arena)
  | op :: rest =>
      let '(r, a) := step op arena in
      let '(rs, a') := run rest a in
      (r :: rs, a')
  end.

(** The locks of the arena on one tuple. *)
Definition locks_on (t : Tuple) (arena : Arena) : list Lock :=
  List.filter (fun l => bool_decide (key l = t)) arena.

(** Pull request [p] gives up tuple [t] by this operation. *)
Definition gives_up (t : Tuple) (p : nat) (op : Op) : bool :=
  match op with
  | OpTryAcquire _ _ _ => false
  | OpRelease t' p' => bool_decide (t' = t) && bool_decide (p' = p)
  | OpReleaseAll p' => bool_decide (p' = p)
  end.

(** The answer an acquisition by [p] on [t] must get while [a] holds
    [t]: success for [a] itself, denial naming [a] for anyone else. *)
Definition answer_while_held (t : Tuple) (a : nat) (op : Op) (r : Response) : Prop :=
  match op with
  | OpTryAcquire t' p _ =>
      if bool_decide (t' = t) then
        if bool_decide (p = a) then r = RAcquire AlreadyHeldBySelf
        else r = RAcquire (DeniedHeldByOther a)
      else True
  | _ => True
  end.

(** The pull request that holds tuple [t], if any. *)
Definition holder (t : Tuple) (arena : Arena) : option nat :=
  pull <$> lookup_lock t arena.

(** The central invariant: at most one lock per tuple. *)
Definition at_most_one_lock (arena : Arena) : Prop :=
  forall t, List.length (locks_on t arena) <= 1.

End locking.

(** ** Go's package strings *)

Module strings.

(** [s] without the leading [prefix], when [s] starts with it. *)
Fixpoint cutPrefix (s prefix : string) : option string :=
  match prefix with
  | EmptyString => Some s
  | String c prefix' =>
      match s with
      | EmptyString => None
      | String d s' => if Ascii.eqb c d then cutPrefix s' prefix' else None
      end
  end.

(** [strings.HasPrefix]. *)
Definition HasPrefix (s prefix : string) : bool := Go.notnil (cutPrefix s prefix).

(** [strings.TrimPrefix]: [s] without the leading [prefix], or [s] itself
    when it does not start with [prefix]. *)
Definition TrimPrefix (s prefix : string) : string := default s (cutPrefix s prefix).

(** [strings.Contains]: [substr] occurs in [s]. *)
Fixpoint Contains (s substr : string) : bool :=
  if HasPrefix s substr then true
  else match s with
       | EmptyString => false
       | String _ s' => Contains s' substr
       end.

End strings.

(** ** Package server: the configuration of a server *)

Module server.

(** The declaration of [server.UserConfig] is not among the source files;
    these are the fields the package [cmd] reads or writes, at the types
    it uses them at.  [CustomStageNames] is a slice that the code compares
    with nil, so it is an optional list here. *)
Record UserConfig := {
  AllowRepoConfig : bool;
  AtlantisURL : string;
  BitbucketBaseURL : string;
  BitbucketToken : string;
  BitbucketUser : string;
  BitbucketWebhookSecret : string;
  CustomStageNames : option (list string);
  DataDir : string;
  GithubHostname : string;
  GithubTeamWhitelist : string;
  GithubToken : string;
  GithubUser : string;
  GithubWebhookSecret : string;
  GitlabHostname : string;
  GitlabToken : string;
  GitlabUser : string;
  GitlabWebhookSecret : string;
  LogLevel : string;
  Port : Z;
  RepoConfig : string;
  RepoWhitelist : string;
  SSLCertFile : string;
  SSLKeyFile : string;
  WakeWord : string
}.

(** The declaration of [server.Config] is not among the source files;
    these are the fields [ServerCmd.run] sets. *)
Record Config := {
  AllowForkPRsFlag : string;
  AllowRepoConfigFlag : string;
  AtlantisVersion : string
}.

End server.

(** ** Package cmd: the server command *)

Module cmd.
Import Go server.

(** Flag names. *)
Definition AllowForkPRsFlag := "allow-fork-prs".
Definition AllowRepoConfigFlag := "allow-repo-config".
Definition AtlantisURLFlag := "atlantis-url".
Definition BitbucketBaseURLFlag := "bitbucket-base-url".
Definition BitbucketTokenFlag := "bitbucket-token".
Definition BitbucketUserFlag := "bitbucket-user".
Definition BitbucketWebhookSecretFlag := "bitbucket-webhook-secret".
Definition ConfigFlag := "config".
Definition DataDirFlag := "data-dir".
Definition GHHostnameFlag := "gh-hostname".
Definition GHTeamWhitelistFlag := "gh-team-whitelist".
Definition GHTokenFlag := "gh-token".
Definition GHUserFlag := "gh-user".
Definition GHWebhookSecretFlag := "gh-webhook-secret".
Definition GitlabHostnameFlag := "gitlab-hostname".
Definition GitlabTokenFlag := "gitlab-token".
Definition GitlabUserFlag := "gitlab-user".
Definition GitlabWebhookSecretFlag := "gitlab-webhook-secret".
Definition LogLevelFlag := "log-level".
Definition PortFlag := "port".
Definition RepoConfigFlag := "repo-config".
Definition RepoWhitelistFlag := "repo-whitelist".
Definition RequireApprovalFlag := "require-approval".
Definition SSLCertFileFlag := "ssl-cert-file".
Definition SSLKeyFileFlag := "ssl-key-file".
Definition WakeWordFlag := "wake-word".

(** The flag-name constants of the [const] block, in its order. *)
Definition flagNames : list string :=
  [ AllowForkPRsFlag; AllowRepoConfigFlag; AtlantisURLFlag; BitbucketBaseURLFlag;
    BitbucketTokenFlag; BitbucketUserFlag; BitbucketWebhookSecretFlag; ConfigFlag;
    DataDirFlag; GHHostnameFlag; GHTeamWhitelistFlag; GHTokenFlag; GHUserFlag;
    GHWebhookSecretFlag; GitlabHostnameFlag; GitlabTokenFlag; GitlabUserFlag;
    GitlabWebhookSecretFlag; LogLevelFlag; PortFlag; RepoConfigFlag; RepoWhitelistFlag;
    RequireApprovalFlag; SSLCertFileFlag; SSLKeyFileFlag; WakeWordFlag ].

(** Flag defaults ([DefaultBitbucketBaseURL] is the constant
    [bitbucketcloud.BaseURL], a field of [Env] below). *)
Definition DefaultDataDir := "~/.atlantis".
Definition DefaultGHHostname := "github.com".
Definition DefaultGHTeamWhitelist := "*:*".
Definition DefaultGitlabHostname := "gitlab.com".
Definition DefaultLogLevel := "info".
Definition DefaultPort : Z := 4141.
Definition DefaultRepoConfig := "atlantis.yaml".
Definition DefaultWakeWord := "atlantis".

Definition escape : string := String "027"%char EmptyString.
Definition newline : string := String "010"%char EmptyString.
Definition dq : string := String "034"%char EmptyString.

Definition redTermStart : string := escape +:+ "[31m".
Definition redTermEnd : string := escape +:+ "[39m".

(** [url.URL], of which [validate] reads the scheme. *)
Record URL := { Scheme : string }.

(** What the command takes from outside this repository's sources: the
    constant [bitbucketcloud.BaseURL], [url.Parse], [os.Hostname],
    [homedir.Expand] and [filepath.Abs]. *)
Class Env := {
  bitbucketcloud_BaseURL : string;
  url_Parse : string -> URL * option error;
  os_Hostname : string * option error;
  homedir_Expand : string -> string * option error;
  filepath_Abs : string -> string * option error
}.

Record stringFlag := {
  s_name : string;
  s_description : string;
  s_defaultValue : string
}.

Record intFlag := {
  i_name : string;
  i_description : string;
  i_defaultValue : Z
}.

Record boolFlag := {
  b_name : string;
  b_description : string;
  b_defaultValue : bool
}.

Definition intFlags : list intFlag :=
  [ {| i_name := PortFlag; i_description := "Port to bind to."; i_defaultValue := DefaultPort |} ].

Definition boolFlags : list boolFlag :=
  [ {| b_name := AllowForkPRsFlag;
       b_description := "Allow Atlantis to run on pull requests from forks. A security issue for public repos.";
       b_defaultValue := false |};
    {| b_name := AllowRepoConfigFlag;
       b_description := "Allow repositories to use atlantis repo config YAML files to customize the commands Atlantis runs."
         +:+ " Should only be enabled in a trusted environment since it enables a pull request to run arbitrary commands"
         +:+ " on the Atlantis server.";
       b_defaultValue := false |};
    {| b_name := RequireApprovalFlag;
       b_description := "Require pull requests to be " +:+ dq +:+ "Approved" +:+ dq
         +:+ " before allowing the apply command to be run.";
       b_defaultValue := false |} ].

(** What the loops of [Init] register: a flag's name, its kind with the
    default handed to the flag set, and its usage text. *)
Inductive FlagValue :=
| StringValue (value : string)
| IntValue (value : Z)
| BoolValue (value : bool).

Record Flag := {
  Name : string;
  DefValue : FlagValue;
  Usage : string
}.

(** The events of a run of the command: a text written to standard
    error, a call of the server creator, a call of the server's [Start]. *)
Inductive Event :=
| Stderr (text : string)
| NewServerCall (userConfig : UserConfig) (config : Config)
| StartCall.

(** The interface [ServerStarter]: what [Start] returns. *)
Record ServerStarter := { Start : option error }.

(** The interface [ServerCreator]; [NewServer] returns a server or an
    error. *)
Record ServerCreator := {
  NewServer : UserConfig -> Config -> ServerStarter + error
}.

(** [*viper.Viper], by what its methods answer: [GetString], the outcome
    of [SetConfigFile] followed by [ReadInConfig], and the outcome of
    [Unmarshal] into a [server.UserConfig]. *)
Record Viper := {
  GetString : string -> string;
  ReadInConfig : string -> option error;
  Unmarshal : UserConfig * option error
}.

Record ServerCmd := {
  ServerCreator_ : ServerCreator;
  Viper_ : Viper;
  SilenceOutput : bool;
  AtlantisVersion_ : string
}.

Section ServerCmd.
Context `{E : Env}.

Definition DefaultBitbucketBaseURL : string := bitbucketcloud_BaseURL.

Definition stringFlags : list stringFlag :=
  [
    {| s_name := AtlantisURLFlag;
       s_description := "URL that Atlantis can be reached at. Defaults to http://$(hostname):$port where $port is from --"
         +:+ PortFlag
         +:+ ".";
       s_defaultValue := EmptyString |};
    {| s_name := BitbucketUserFlag;
       s_description := "Bitbucket username of API user.";
       s_defaultValue := EmptyString |};
    {| s_name := BitbucketTokenFlag;
       s_description := "Bitbucket app password of API user. Can also be specified via the ATLANTIS_BITBUCKET_TOKEN environment variable.";
       s_defaultValue := EmptyString |};
    {| s_name := BitbucketBaseURLFlag;
       s_description := "Base URL of Bitbucket Server (aka Stash) installation."
         +:+ " Must include scheme, ex. 'http://bitbucket.corp:7990' or 'https://bitbucket.corp'."
         +:+ " If using Bitbucket Cloud (bitbucket.org), do not set.";
       s_defaultValue := DefaultBitbucketBaseURL |};
    {| s_name := BitbucketWebhookSecretFlag;
       s_description := "Secret used to validate Bitbucket webhooks. Only Bitbucket Server supports webhook secrets."
         +:+ " SECURITY WARNING: If not specified, Atlantis won't be able to validate that the incoming webhook call came from Bitbucket. "
         +:+ "This means that an attacker could spoof calls to Atlantis and cause it to perform malicious actions. "
         +:+ "Should be specified via the ATLANTIS_BITBUCKET_WEBHOOK_SECRET environment variable.";
       s_defaultValue := EmptyString |};
    {| s_name := ConfigFlag;
       s_description := "Path to config file. All flags can be set in a YAML config file instead.";
       s_defaultValue := EmptyString |};
    {| s_name := DataDirFlag;
       s_description := "Path to directory to store Atlantis data.";
       s_defaultValue := DefaultDataDir |};
    {| s_name := GHHostnameFlag;
       s_description := "Hostname of your Github Enterprise installation. If using github.com, no need to set.";
       s_defaultValue := DefaultGHHostname |};
    {| s_name := GHTeamWhitelistFlag;
       s_description := "Comma separated list of key-value pairs representing the GitHub teams and the operations that the members of a particular team are allowed to perform. "
         +:+ "The format is {team}:{command},{team}:{command}, ex. dev:plan,ops:apply,admin:destroy,devops:*. "
         +:+ "This example means to give the users from the 'dev' GitHub team the permissions to execute the 'plan' command, "
         +:+ "give the 'ops' team the permissions to execute the 'apply' command, "
         +:+ "give the 'admin' team the permissions to execute the 'destroy' command, "
         +:+ "and allow the 'devops' team to perform any operation. If this argument is not provided, the default value (*:*) will be used and the default behavior will be to not check permissions "
         +:+ "and to allow users from any team to perform any operation.";
       s_defaultValue := DefaultGHTeamWhitelist |};
    {| s_name := GHUserFlag;
       s_description := "GitHub username of API user.";
       s_defaultValue := EmptyString |};
    {| s_name := GHTokenFlag;
       s_description := "GitHub token of API user. Can also be specified via the ATLANTIS_GH_TOKEN environment variable.";
       s_defaultValue := EmptyString |};
    {| s_name := GHWebhookSecretFlag;
       s_description := "Secret used to validate GitHub webhooks (see https://developer.github.com/webhooks/securing/)."
         +:+ " SECURITY WARNING: If not specified, Atlantis won't be able to validate that the incoming webhook call came from GitHub. "
         +:+ "This means that an attacker could spoof calls to Atlantis and cause it to perform malicious actions. "
         +:+ "Should be specified via the ATLANTIS_GH_WEBHOOK_SECRET environment variable.";
       s_defaultValue := EmptyString |};
    {| s_name := GitlabHostnameFlag;
       s_description := "Hostname of your GitLab Enterprise installation. If using gitlab.com, no need to set.";
       s_defaultValue := DefaultGitlabHostname |};
    {| s_name := GitlabUserFlag;
       s_description := "GitLab username of API user.";
       s_defaultValue := EmptyString |};
    {| s_name := GitlabTokenFlag;
       s_description := "GitLab token of API user. Can also be specified via the ATLANTIS_GITLAB_TOKEN environment variable.";
       s_defaultValue := EmptyString |};
    {| s_name := GitlabWebhookSecretFlag;
       s_description := "Optional secret used to validate GitLab webhooks."
         +:+ " SECURITY WARNING: If not specified, Atlantis won't be able to validate that the incoming webhook call came from GitLab. "
         +:+ "This means that an attacker could spoof calls to Atlantis and cause it to perform malicious actions. "
         +:+ "Should be specified via the ATLANTIS_GITLAB_WEBHOOK_SECRET environment variable.";
       s_defaultValue := EmptyString |};
    {| s_name := LogLevelFlag;
       s_description := "Log level. Either debug, info, warn, or error.";
       s_defaultValue := DefaultLogLevel |};
    {| s_name := RepoConfigFlag;
       s_description := "Optional path to the Atlantis YAML config file contained in each repo that this server should use. "
         +:+ "This allows different Atlantis servers to point at different configs in the same repo.";
       s_defaultValue := DefaultRepoConfig |};
    {| s_name := RepoWhitelistFlag;
       s_description := "Comma separated list of repositories that Atlantis will operate on. "
         +:+ "The format is {hostname}/{owner}/{repo}, ex. github.com/runatlantis/atlantis. '*' matches any characters until the next comma and can be used for example to whitelist "
         +:+ "all repos: '*' (not recommended), an entire hostname: 'internalgithub.com/*' or an organization: 'github.com/runatlantis/*'."
         +:+ " For Bitbucket Server, {hostname} is the domain without scheme and port, {owner} is the name of the project (not the key), and {repo} is the repo name.";
       s_defaultValue := EmptyString |};
    {| s_name := SSLCertFileFlag;
       s_description := "File containing x509 Certificate used for serving HTTPS. If the cert is signed by a CA, the file should be the concatenation of the server's certificate, any intermediates, and the CA's certificate.";
       s_defaultValue := EmptyString |};
    {| s_name := SSLKeyFileFlag;
       s_description := "File containing x509 private key matching --" +:+ SSLCertFileFlag +:+ ".";
       s_defaultValue := EmptyString |};
    {| s_name := WakeWordFlag;
       s_description := "Wake word for this server to listen to. Default is 'atlantis'. "
         +:+ "This allows different wake commands (e.g. 'staging' or 'prod') to be used for different stages if more than one server operates on the same repo.";
       s_defaultValue := DefaultWakeWord |} ].

(** The usage text [Init] computes for a string flag and for an int
    flag. *)
Definition stringFlagUsage (f : stringFlag) : string :=
  let usage := s_description f in
  let usage :=
    if negb (bool_decide (s_defaultValue f = EmptyString))
    then usage +:+ " (default " +:+ dq +:+ s_defaultValue f +:+ dq +:+ ")"
    else usage in
  usage +:+ newline.

Definition intFlagUsage (f : intFlag) : string :=
  let usage := i_description f in
  let usage :=
    if negb (bool_decide (i_defaultValue f = 0%Z))
    then usage +:+ " (default " +:+ pretty (i_defaultValue f) +:+ ")"
    else usage in
  usage +:+ newline.

(** The three loops of [Init], in their order: every string flag is
    registered with the empty string, every int flag with 0, every bool
    flag with its default. *)
Definition Init_flags : list Flag :=
  (List.map (fun f => {| Name := s_name f; DefValue := StringValue EmptyString;
                         Usage := stringFlagUsage f |}) stringFlags
   ++ List.map (fun f => {| Name := i_name f; DefValue := IntValue 0;
                            Usage := intFlagUsage f |}) intFlags
   ++ List.map (fun f => {| Name := b_name f; DefValue := BoolValue (b_defaultValue f);
                            Usage := b_description f +:+ newline |}) boolFlags)%list.

(** [preRun]. *)
Definition preRun (s : ServerCmd) : option error :=
  let configFile := GetString (Viper_ s) ConfigFlag in
  if negb (bool_decide (configFile = EmptyString)) then
    match ReadInConfig (Viper_ s) configFile with
    | Some err => errors_Wrapf (Some err) ("invalid config: reading " +:+ configFile)
    | None => None
    end
  else None.

(** [setDefaults]; the assignments are to different fields, so they are
    written as one record. *)
Definition setDefaults (c : UserConfig) : UserConfig :=
  {| AllowRepoConfig := AllowRepoConfig c;
     AtlantisURL := AtlantisURL c;
     BitbucketBaseURL :=
       if bool_decide (BitbucketBaseURL c = EmptyString) then DefaultBitbucketBaseURL
       else BitbucketBaseURL c;
     BitbucketToken := BitbucketToken c;
     BitbucketUser := BitbucketUser c;
     BitbucketWebhookSecret := BitbucketWebhookSecret c;
     CustomStageNames :=
       match CustomStageNames c with
       | None => Some []
       | Some names => if bool_decide (List.length names = 0) then Some [] else Some names
       end;
     DataDir := if bool_decide (DataDir c = EmptyString) then DefaultDataDir else DataDir c;
     GithubHostname :=
       if bool_decide (GithubHostname c = EmptyString) then DefaultGHHostname
       else GithubHostname c;
     GithubTeamWhitelist :=
       if bool_decide (GithubTeamWhitelist c = EmptyString) then DefaultGHTeamWhitelist
       else GithubTeamWhitelist c;
     GithubToken := GithubToken c;
     GithubUser := GithubUser c;
     GithubWebhookSecret := GithubWebhookSecret c;
     GitlabHostname :=
       if bool_decide (GitlabHostname c = EmptyString) then DefaultGitlabHostname
       else GitlabHostname c;
     GitlabToken := GitlabToken c;
     GitlabUser := GitlabUser c;
     GitlabWebhookSecret := GitlabWebhookSecret c;
     LogLevel := if bool_decide (LogLevel c = EmptyString) then DefaultLogLevel else LogLevel c;
     Port := if bool_decide (Port c = 0%Z) then DefaultPort else Port c;
     RepoConfig :=
       if bool_decide (RepoConfig c = EmptyString) then DefaultRepoConfig else RepoConfig c;
     RepoWhitelist := RepoWhitelist c;
     SSLCertFile := SSLCertFile c;
     SSLKeyFile := SSLKeyFile c;
     WakeWord := if bool_decide (WakeWord c = EmptyString) then DefaultWakeWord else WakeWord c |}.

(** The comparison [s == ""]. *)
Definition blank (s : string) : bool := bool_decide (s = EmptyString).

(** The error [vcsErr] of [validate]. *)
Definition vcsErr : error :=
  errorString ("--" +:+ GHUserFlag +:+ "/--" +:+ GHTokenFlag +:+ " or --" +:+ GitlabUserFlag
               +:+ "/--" +:+ GitlabTokenFlag +:+ " or --" +:+ BitbucketUserFlag
               +:+ "/--" +:+ BitbucketTokenFlag +:+ " must be set").

Context `{L : Lib}.

(** [validate]. *)
Definition validate (userConfig : UserConfig) : option error :=
  let logLevel := LogLevel userConfig in
  if negb (bool_decide (logLevel = "debug")) && negb (bool_decide (logLevel = "info"))
     && negb (bool_decide (logLevel = "warn")) && negb (bool_decide (logLevel = "error")) then
    Some (errorString "invalid log level: not one of debug, info, warn, error")
  else if negb (Bool.eqb (blank (SSLKeyFile userConfig)) (blank (SSLCertFile userConfig))) then
    Some (errorString ("--" +:+ SSLKeyFileFlag +:+ " and --" +:+ SSLCertFileFlag
                       +:+ " are both required for ssl"))
  else if negb (Bool.eqb (blank (GithubUser userConfig)) (blank (GithubToken userConfig)))
          || negb (Bool.eqb (blank (GitlabUser userConfig)) (blank (GitlabToken userConfig)))
          || negb (Bool.eqb (blank (BitbucketUser userConfig)) (blank (BitbucketToken userConfig))) then
    Some vcsErr
  else if blank (GithubUser userConfig) && blank (GitlabUser userConfig)
          && blank (BitbucketUser userConfig) then
    Some vcsErr
  else if blank (RepoWhitelist userConfig) then
    Some (errorString ("--" +:+ RepoWhitelistFlag +:+ " must be set for security purposes"))
  else if strings.Contains (RepoWhitelist userConfig) "://" then
    Some (errorString ("--" +:+ RepoWhitelistFlag
                       +:+ " cannot contain ://, should be hostnames only"))
  else if bool_decide (BitbucketBaseURL userConfig = DefaultBitbucketBaseURL)
          && negb (blank (BitbucketWebhookSecret userConfig)) then
    Some (errorString ("--" +:+ BitbucketWebhookSecretFlag
                       +:+ " cannot be specified for Bitbucket Cloud because it is not supported by Bitbucket"))
  else
    let '(parsed, err) := url_Parse (BitbucketBaseURL userConfig) in
    match err with
    | Some e =>
        Some (errorString ("error parsing --" +:+ BitbucketWebhookSecretFlag +:+ " flag value "
                           +:+ strconv_Quote (BitbucketBaseURL userConfig) +:+ ": " +:+ Error e))
    | None =>
        if negb (bool_decide (Scheme parsed = "http"))
           && negb (bool_decide (Scheme parsed = "https")) then
          Some (errorString ("--" +:+ BitbucketBaseURLFlag
                             +:+ " must have http:// or https://, got "
                             +:+ strconv_Quote (BitbucketBaseURL userConfig)))
        else if negb (bool_decide (RepoConfig userConfig = DefaultRepoConfig))
                && negb (AllowRepoConfig userConfig) then
          Some (errorString ("custom --" +:+ RepoConfigFlag +:+ " cannot be specified if --"
                             +:+ AllowRepoConfigFlag +:+ " is false"))
        else None
    end.

(** The assignments [userConfig.AtlantisURL = v] and
    [userConfig.DataDir = v]. *)
Definition with_AtlantisURL (v : string) (c : UserConfig) : UserConfig :=
  {| AllowRepoConfig := AllowRepoConfig c; AtlantisURL := v;
     BitbucketBaseURL := BitbucketBaseURL c; BitbucketToken := BitbucketToken c;
     BitbucketUser := BitbucketUser c; BitbucketWebhookSecret := BitbucketWebhookSecret c;
     CustomStageNames := CustomStageNames c; DataDir := DataDir c;
     GithubHostname := GithubHostname c; GithubTeamWhitelist := GithubTeamWhitelist c;
     GithubToken := GithubToken c; GithubUser := GithubUser c;
     GithubWebhookSecret := GithubWebhookSecret c; GitlabHostname := GitlabHostname c;
     GitlabToken := GitlabToken c; GitlabUser := GitlabUser c;
     GitlabWebhookSecret := GitlabWebhookSecret c; LogLevel := LogLevel c; Port := Port c;
     RepoConfig := RepoConfig c; RepoWhitelist := RepoWhitelist c;
     SSLCertFile := SSLCertFile c; SSLKeyFile := SSLKeyFile c; WakeWord := WakeWord c |}.

Definition with_DataDir (v : string) (c : UserConfig) : UserConfig :=
  {| AllowRepoConfig := AllowRepoConfig c; AtlantisURL := AtlantisURL c;
     BitbucketBaseURL := BitbucketBaseURL c; BitbucketToken := BitbucketToken c;
     BitbucketUser := BitbucketUser c; BitbucketWebhookSecret := BitbucketWebhookSecret c;
     CustomStageNames := CustomStageNames c; DataDir := v;
     GithubHostname := GithubHostname c; GithubTeamWhitelist := GithubTeamWhitelist c;
     GithubToken := GithubToken c; GithubUser := GithubUser c;
     GithubWebhookSecret := GithubWebhookSecret c; GitlabHostname := GitlabHostname c;
     GitlabToken := GitlabToken c; GitlabUser := GitlabUser c;
     GitlabWebhookSecret := GitlabWebhookSecret c; LogLevel := LogLevel c; Port := Port c;
     RepoConfig := RepoConfig c; RepoWhitelist := RepoWhitelist c;
     SSLCertFile := SSLCertFile c; SSLKeyFile := SSLKeyFile c; WakeWord := WakeWord c |}.

(** [setAtlantisURL]: the configuration after the call and the error. *)
Definition setAtlantisURL (userConfig : UserConfig) : UserConfig * option error :=
  if bool_decide (AtlantisURL userConfig = EmptyString) then
    let '(hostname, err) := os_Hostname in
    match err with
    | Some e => (userConfig, Some (errorString ("Failed to determine hostname: " +:+ Error e)))
    | None =>
        (with_AtlantisURL ("http://" +:+ hostname +:+ ":" +:+ pretty (Port userConfig)) userConfig,
         None)
    end
  else (userConfig, None).

(** [setDataDir]: the configuration after the call and the error. *)
Definition setDataDir (userConfig : UserConfig) : UserConfig * option error :=
  let finalPath := DataDir userConfig in
  let '(finalPath, err) :=
    if strings.HasPrefix finalPath "~/" then homedir_Expand finalPath else (finalPath, None) in
  match err with
  | Some e => (userConfig, errors_Wrapf (Some e) "determining home directory")
  | None =>
      let '(finalPath, err) := filepath_Abs finalPath in
      match err with
      | Some e => (userConfig, errors_Wrapf (Some e) "making data-dir absolute")
      | None => (with_DataDir finalPath userConfig, None)
      end
  end.

(** [trimAtSymbolFromUsers]. *)
Definition trimAtSymbolFromUsers (c : UserConfig) : UserConfig :=
  {| AllowRepoConfig := AllowRepoConfig c; AtlantisURL := AtlantisURL c;
     BitbucketBaseURL := BitbucketBaseURL c; BitbucketToken := BitbucketToken c;
     BitbucketUser := strings.TrimPrefix (BitbucketUser c) "@";
     BitbucketWebhookSecret := BitbucketWebhookSecret c;
     CustomStageNames := CustomStageNames c; DataDir := DataDir c;
     GithubHostname := GithubHostname c; GithubTeamWhitelist := GithubTeamWhitelist c;
     GithubToken := GithubToken c;
     GithubUser := strings.TrimPrefix (GithubUser c) "@";
     GithubWebhookSecret := GithubWebhookSecret c; GitlabHostname := GitlabHostname c;
     GitlabToken := GitlabToken c;
     GitlabUser := strings.TrimPrefix (GitlabUser c) "@";
     GitlabWebhookSecret := GitlabWebhookSecret c; LogLevel := LogLevel c; Port := Port c;
     RepoConfig := RepoConfig c; RepoWhitelist := RepoWhitelist c;
     SSLCertFile := SSLCertFile c; SSLKeyFile := SSLKeyFile c; WakeWord := WakeWord c |}.

(** One warning line of [securityWarnings]. *)
Definition warning (text : string) : Event :=
  Stderr (redTermStart +:+ "[WARN] " +:+ text +:+ redTermEnd +:+ newline).

(** [securityWarnings]: what it writes to standard error, in order. *)
Definition securityWarnings (s : ServerCmd) (userConfig : UserConfig) : list Event :=
  ((if negb (blank (GithubUser userConfig)) && blank (GithubWebhookSecret userConfig)
       && negb (SilenceOutput s)
    then [warning "No GitHub webhook secret set. This could allow attackers to spoof requests from GitHub."]
    else [])
   ++ (if negb (blank (GitlabUser userConfig)) && blank (GitlabWebhookSecret userConfig)
          && negb (SilenceOutput s)
       then [warning "No GitLab webhook secret set. This could allow attackers to spoof requests from GitLab."]
       else [])
   ++ (if negb (blank (BitbucketUser userConfig))
          && negb (bool_decide (BitbucketBaseURL userConfig = DefaultBitbucketBaseURL))
          && blank (BitbucketWebhookSecret userConfig) && negb (SilenceOutput s)
       then [warning "No Bitbucket webhook secret set. This could allow attackers to spoof requests from Bitbucket."]
       else [])
   ++ (if negb (blank (BitbucketUser userConfig))
          && bool_decide (BitbucketBaseURL userConfig = DefaultBitbucketBaseURL)
          && negb (SilenceOutput s)
       then [warning "Bitbucket Cloud does not support webhook secrets. This could allow attackers to spoof requests from Bitbucket. Ensure you are whitelisting Bitbucket IPs."]
       else []))%list.

(** [withErrPrint]: the wrapped function returns what [f] returns, after
    writing the error in red unless output is silenced. *)
Definition withErrPrint {C : Type} (s : ServerCmd)
    (f : C -> list string -> option error * list Event)
    : C -> list string -> option error * list Event :=
  fun cmd args =>
    let '(err, events) := f cmd args in
    match err with
    | Some e =>
        if negb (SilenceOutput s) then
          (err, (events ++ [Stderr (redTermStart +:+ "[ERROR] " +:+ Error e +:+ redTermEnd
                                    +:+ newline +:+ newline)])%list)
        else (err, events)
    | None => (err, events)
    end.

(** [run]: the error it returns and the events it causes, in order. *)
Definition run (s : ServerCmd) : option error * list Event :=
  let '(userConfig, err) := Unmarshal (Viper_ s) in
  match err with
  | Some e => (Some e, [])
  | None =>
      let userConfig := setDefaults userConfig in
      match validate userConfig with
      | Some e => (Some e, [])
      | None =>
          let '(userConfig, err) := setAtlantisURL userConfig in
          match err with
          | Some e => (Some e, [])
          | None =>
              let '(userConfig, err) := setDataDir userConfig in
              match err with
              | Some e => (Some e, [])
              | None =>
                  let warnings := securityWarnings s userConfig in
                  let userConfig := trimAtSymbolFromUsers userConfig in
                  let config := {| server.AllowForkPRsFlag := AllowForkPRsFlag;
                                   server.AllowRepoConfigFlag := AllowRepoConfigFlag;
                                   server.AtlantisVersion := AtlantisVersion_ s |} in
                  match NewServer (ServerCreator_ s) userConfig config with
                  | inr e =>
                      (errors_Wrapf (Some e) "initializing server",
                       (warnings ++ [NewServerCall userConfig config])%list)
                  | inl server =>
                      (Start server,
                       (warnings ++ [NewServerCall userConfig config; StartCall])%list)
                  end
              end
          end
      end
  end.

(** The field [RunE] of the command [Init] builds. *)
Definition RunE {C : Type} (s : ServerCmd) : C -> list string -> option error * list Event :=
  withErrPrint s (fun _ _ => run s).

End ServerCmd.

End cmd.

(** ** Predicates on server configurations *)

Module cmd_props.
Import Go server cmd.

Section Acceptable.
Context `{E : Env}.

(** What [validate] requires of a configuration: a known log level; both
    SSL files or neither; for each version control system both the user
    and the token or neither, and at least one user; a repository
    whitelist that is not empty and has no [://]; no webhook secret with
    the Bitbucket Cloud base URL; a Bitbucket base URL that parses with the
    scheme http or https; the default repository configuration name unless
    repository configurations are allowed. *)
Definition acceptable (c : UserConfig) : Prop :=
  LogLevel c ∈ ["debug"; "info"; "warn"; "error"]
  /\ (SSLKeyFile c = EmptyString <-> SSLCertFile c = EmptyString)
  /\ (GithubUser c = EmptyString <-> GithubToken c = EmptyString)
  /\ (GitlabUser c = EmptyString <-> GitlabToken c = EmptyString)
  /\ (BitbucketUser c = EmptyString <-> BitbucketToken c = EmptyString)
  /\ (GithubUser c <> EmptyString \/ GitlabUser c <> EmptyString
      \/ BitbucketUser c <> EmptyString)
  /\ RepoWhitelist c <> EmptyString
  /\ strings.Contains (RepoWhitelist c) "://" = false
  /\ (BitbucketBaseURL c = DefaultBitbucketBaseURL -> BitbucketWebhookSecret c = EmptyString)
  /\ (exists parsed,
         url_Parse (BitbucketBaseURL c) = (parsed, None)
         /\ (Scheme parsed = "http" \/ Scheme parsed = "https"))
  /\ (RepoConfig c <> DefaultRepoConfig -> AllowRepoConfig c = true).

End Acceptable.

(** The zero value of [server.UserConfig], which [run] declares before
    [Unmarshal] fills it. *)
Definition zeroUserConfig : UserConfig :=
  {| AllowRepoConfig := false; AtlantisURL := EmptyString;
     BitbucketBaseURL := EmptyString; BitbucketToken := EmptyString;
     BitbucketUser := EmptyString; BitbucketWebhookSecret := EmptyString;
     CustomStageNames := None; DataDir := EmptyString;
     GithubHostname := EmptyString; GithubTeamWhitelist := EmptyString;
     GithubToken := EmptyString; GithubUser := EmptyString;
     GithubWebhookSecret := EmptyString; GitlabHostname := EmptyString;
     GitlabToken := EmptyString; GitlabUser := EmptyString;
     GitlabWebhookSecret := EmptyString; LogLevel := EmptyString;
     Port := 0; RepoConfig := EmptyString; RepoWhitelist := EmptyString;
     SSLCertFile := EmptyString; SSLKeyFile := EmptyString; WakeWord := EmptyString |}.

(** The default a flag's usage text documents: the [defaultValue] of its
    entry in [stringFlags] or [intFlags]. *)
Definition documentedString `{E : Env} (name : string) : option string :=
  s_defaultValue <$> List.find (fun f => bool_decide (s_name f = name)) stringFlags.

Definition documentedInt (name : string) : option Z :=
  i_defaultValue <$> List.find (fun f => bool_decide (i_name f = name)) intFlags.

(** An event is a text written to standard error. *)
Definition is_Stderr (e : Event) : bool :=
  match e with
  | Stderr _ => true
  | _ => false
  end.

End cmd_props.

(** ** Predicates on configurations *)

Module config_props.

(** The name [name] is assigned to two different projects of the list. *)
Definition assigned_twice (projects : list valid.Project) (name : string) : Prop :=
  exists i j p q,
    i < j /\ projects !! i = Some p /\ projects !! j = Some q
    /\ valid.Name p = Some name /\ valid.Name q = Some name.

(** No name is assigned to two different projects of the list. *)
Definition names_distinct (projects : list valid.Project) : Prop :=
  forall i j p q name,
    projects !! i = Some p -> projects !! j = Some q ->
    valid.Name p = Some name -> valid.Name q = Some name -> i = j.

(** Project [q] has no name and comes after another project of the list
    with the same directory and workspace. *)
Definition unnamed_after_same_pair (projects : list valid.Project) (q : valid.Project) : Prop :=
  exists i j p,
    i < j /\ projects !! i = Some p /\ projects !! j = Some q
    /\ valid.Dir p = valid.Dir q /\ valid.Workspace p = valid.Workspace q
    /\ valid.Name q = None.

(** Some project already met by the second loop of
    [validateProjectNames] has the key [k]. *)
Definition occupied (names : gmap string (list string)) (k : string) : Prop :=
  (0 <? List.length (default [] (names !! k)))%nat = true.

(** Project [q] has no name and comes after another project of the list
    with the same [dir/workspace] key. *)
Definition unnamed_after_same_key (projects : list valid.Project) (q : valid.Project) : Prop :=
  exists i j p,
    i < j /\ projects !! i = Some p /\ projects !! j = Some q
    /\ yaml.dirWorkspaceKey p = yaml.dirWorkspaceKey q
    /\ valid.Name q = None.

End config_props.

(** ** The version selection as the specification words it *)

Module runtime_props.
Import Go runtime.

Section VersionSelection.
Context `{L : Lib} `{D : Deps}.

(** The specification's wording of the version selection, for an engine
    whose default version is [defaultVersion] (nil when unset): every call
    of the executor that [Run] makes carries the project's declared version
    when the project configuration is present and declares one, and
    [defaultVersion] otherwise. *)
Definition passes_declared_or_default (defaultVersion : option Version) : Prop :=
  forall a fs ctx extraArgs path log p args v ws,
    ExecCall log p args v ws ∈ snd (Run a fs ctx extraArgs path []) ->
    v = match ProjectConfig ctx with
        | Some cfg =>
            match valid.TerraformVersion cfg with
            | Some declared => Some declared
            | None => defaultVersion
            end
        | None => defaultVersion
        end.

End VersionSelection.

End runtime_props.

(** ** Sample values *)

Module Sample.
Import Go.

Definition dquote : ascii := "034"%char.
Definition backslash : ascii := "092"%char.

(** [strconv.Quote] on printable ASCII text: the text between double
    quotes, with a backslash before every double quote and backslash. *)
Fixpoint quoteBody (s : string) : string :=
  match s with
  | EmptyString => EmptyString
  | String c rest =>
      if decide (c = dquote) then String backslash (String dquote (quoteBody rest))
      else if decide (c = backslash) then String backslash (String backslash (quoteBody rest))
      else String c (quoteBody rest)
  end.

Definition Quote (s : string) : string :=
  String dquote (quoteBody s +:+ String dquote EmptyString).

(** [filepath.Join] on two clean, non-empty elements. *)
Definition Join (a b : string) : string := a +:+ "/" +:+ b.

#[export] Instance lib : Lib := {| strconv_Quote := Quote; filepath_Join := Join |}.

(** Two projects on the directory [.] and the workspace [default], one
    of them without a name, in both orders. *)
Definition unnamed_project : valid.Project :=
  {| valid.Dir := "."; valid.Workspace := "default"; valid.Name := None;
     valid.Workflow_ref := None; valid.TerraformVersion := None |}.

Definition staging_project : valid.Project :=
  {| valid.Dir := "."; valid.Workspace := "default"; valid.Name := Some "staging";
     valid.Workflow_ref := None; valid.TerraformVersion := None |}.

Definition unnamed_then_named : valid.Config :=
  {| valid.Projects := [unnamed_project; staging_project]; valid.Workflows := ∅ |}.

Definition named_then_unnamed : valid.Config :=
  {| valid.Projects := [staging_project; unnamed_project]; valid.Workflows := ∅ |}.

(** Two projects in different directories that carry the same name. *)
Definition twice_staging : valid.Config :=
  {| valid.Projects :=
       [ {| valid.Dir := "network"; valid.Workspace := "default"; valid.Name := Some "staging";
            valid.Workflow_ref := None; valid.TerraformVersion := None |};
         {| valid.Dir := "compute"; valid.Workspace := "prod"; valid.Name := Some "staging";
            valid.Workflow_ref := None; valid.TerraformVersion := None |} ];
     valid.Workflows := ∅ |}.

(** A raw project that references the workflow [custom], in a
    configuration that only defines the workflow [default]. *)
Definition custom_project : raw.Project :=
  {| raw.Name := None; raw.Dir := Some "."; raw.Workspace := None;
     raw.Workflow_ref := Some "custom"; raw.TerraformVersion := None |}.

Definition references_custom : raw.Config :=
  {| raw.Projects := [custom_project];
     raw.Workflows := {[ "default" := ["init"; "plan"] ]} |}.

(** Two raw projects without a directory and with the same name. *)
Definition nameless_dir_project : raw.Project :=
  {| raw.Name := Some "a"; raw.Dir := None; raw.Workspace := None;
     raw.Workflow_ref := None; raw.TerraformVersion := None |}.

Definition blank_dirs : raw.Config :=
  {| raw.Projects := [nameless_dir_project; nameless_dir_project]; raw.Workflows := ∅ |}.

Definition raw_zero : raw.Config := {| raw.Projects := []; raw.Workflows := ∅ |}.

(** A decoder that knows two documents and rejects every other one, a
    schema validation that requires a directory for every project, and a
    transformation that fills in the defaults. *)
Definition documents : list (string * raw.Config) :=
  [ ("{projects: [{dir: ., workflow: custom}], workflows: {default: [init, plan]}}",
     references_custom);
    ("{projects: [{name: a}, {name: a}]}", blank_dirs) ].

Fixpoint find_document (text : string) (table : list (string * raw.Config))
    : option raw.Config :=
  match table with
  | [] => None
  | (doc, cfg) :: rest => if String.eqb doc text then Some cfg else find_document text rest
  end.

Definition UnmarshalStrict (data : list Byte.byte) : raw.Config * option error :=
  match find_document (string_of_list_byte data) documents with
  | Some cfg => (cfg, None)
  | None => (raw_zero, Some (libError "yaml: unmarshal errors"))
  end.

Definition Validate (tag : string) (cfg : raw.Config) : option error :=
  if forallb (fun p => notnil (raw.Dir p)) (raw.Projects cfg) then None
  else Some (libError ("projects: "
               +:+ (if String.eqb tag "yaml" then "dir" else "Dir")
               +:+ ": cannot be blank."))%string.

Definition ToValid (cfg : raw.Config) : valid.Config :=
  {| valid.Projects :=
       List.map (fun p =>
              {| valid.Dir := default "." (raw.Dir p);
                 valid.Workspace := default "default" (raw.Workspace p);
                 valid.Name := raw.Name p;
                 valid.Workflow_ref := raw.Workflow_ref p;
                 valid.TerraformVersion := raw.TerraformVersion p |})
           (raw.Projects cfg);
     valid.Workflows := raw.Workflows cfg |}.

#[export] Instance yaml_deps : yaml.Deps :=
  {| yaml.yaml_UnmarshalStrict := UnmarshalStrict;
     yaml.raw_Validate := Validate;
     yaml.raw_ToValid := ToValid |}.

Definition blank_dirs_document : list Byte.byte :=
  list_byte_of_string "{projects: [{name: a}, {name: a}]}".

(** A repository without any file, and one whose only file is a plan of
    the workspace [default] under [/repo]. *)
Definition no_files : FileSystem := fun _ => LFail ENOENT.

Definition only_plan : FileSystem :=
  fun name => if String.eqb name "/repo/default.tfplan" then LFile [] true else LFail ENOENT.

(** A file that exists and may not be read. *)
Definition unreadable_config : FileSystem :=
  fun name => if String.eqb name "/repo/atlantis.yaml" then LFile [] false else LFail ENOENT.

(** A configuration file that is read and holds no document. *)
Definition garbled_config : FileSystem :=
  fun name => if String.eqb name "/repo/atlantis.yaml" then LFile [] true else LFail ENOENT.

(** The plan file name of a workspace for a project without a name. *)
#[export] Instance runtime_deps : runtime.Deps :=
  {| runtime.GetPlanFilename := fun workspace _ => workspace +:+ ".tfplan" |}.

Definition logger : runtime.SimpleLogger := {| runtime.Source := "server" |}.

Definition plain_context : runtime.ProjectCommandContext :=
  {| runtime.RepoRelDir := "."; runtime.Workspace := "default";
     runtime.ProjectConfig := None; runtime.CommentArgs := ["-target=a"];
     runtime.Log := logger |}.

Definition pinned_context : runtime.ProjectCommandContext :=
  {| runtime.RepoRelDir := "."; runtime.Workspace := "default";
     runtime.ProjectConfig :=
       Some {| valid.Dir := "."; valid.Workspace := "default"; valid.Name := None;
               valid.Workflow_ref := None; valid.TerraformVersion := Some "0.11.10" |};
     runtime.CommentArgs := [];
     runtime.Log := logger |}.

(** An executor whose process always succeeds. *)
Definition succeeding : runtime.ApplyStepRunner :=
  {| runtime.TerraformExecutor :=
       {| runtime.RunCommandWithVersion := fun _ _ _ _ _ _ => ("Apply complete!", None) |} |}.

(** A tuple and an execution in which pull request 7 holds it. *)
Definition tuple : locking.Tuple :=
  {| locking.repoFullName := "owner/repo"; locking.projectPath := ".";
     locking.workspace := "default" |}.

Definition plan_by_7 : list locking.Op := [locking.OpTryAcquire tuple 7 100].

Definition contention : list locking.Op :=
  [ locking.OpTryAcquire tuple 9 101; locking.OpTryAcquire tuple 7 102;
    locking.OpRelease tuple 9; locking.OpReleaseAll 9; locking.OpTryAcquire tuple 9 103 ].

(** The text before the first colon. *)
Fixpoint beforeColon (s : string) : option string :=
  match s with
  | EmptyString => None
  | String c rest =>
      if Ascii.eqb c ":" then Some EmptyString
      else match beforeColon rest with
           | Some scheme => Some (String c scheme)
           | None => None
           end
  end.

(** A host called [atlantis.corp], the home directory [/home/atlantis],
    the working directory [/srv/atlantis], URLs that always parse and
    whose scheme is the text before the first colon, and the base URL of
    Bitbucket Cloud. *)
#[export] Instance env : cmd.Env :=
  {| cmd.bitbucketcloud_BaseURL := "https://api.bitbucket.org";
     cmd.url_Parse := fun s => ({| cmd.Scheme := default EmptyString (beforeColon s) |}, None);
     cmd.os_Hostname := ("atlantis.corp", None);
     cmd.homedir_Expand := fun s => ("/home/atlantis" +:+ strings.TrimPrefix s "~", None);
     cmd.filepath_Abs :=
       fun s => if strings.HasPrefix s "/" then (s, None) else ("/srv/atlantis/" +:+ s, None) |}.

(** A configuration that only names a GitHub user, its token and the
    repositories, and the same with the user [@]. *)
Definition github_only : server.UserConfig :=
  {| server.AllowRepoConfig := false; server.AtlantisURL := EmptyString;
     server.BitbucketBaseURL := EmptyString; server.BitbucketToken := EmptyString;
     server.BitbucketUser := EmptyString; server.BitbucketWebhookSecret := EmptyString;
     server.CustomStageNames := None; server.DataDir := EmptyString;
     server.GithubHostname := EmptyString; server.GithubTeamWhitelist := EmptyString;
     server.GithubToken := "token"; server.GithubUser := "@bot";
     server.GithubWebhookSecret := EmptyString; server.GitlabHostname := EmptyString;
     server.GitlabToken := EmptyString; server.GitlabUser := EmptyString;
     server.GitlabWebhookSecret := EmptyString; server.LogLevel := EmptyString;
     server.Port := 0; server.RepoConfig := EmptyString;
     server.RepoWhitelist := "github.com/acme/*";
     server.SSLCertFile := EmptyString; server.SSLKeyFile := EmptyString;
     server.WakeWord := EmptyString |}.

Definition at_only : server.UserConfig :=
  {| server.AllowRepoConfig := false; server.AtlantisURL := EmptyString;
     server.BitbucketBaseURL := "https://api.bitbucket.org";
     server.BitbucketToken := EmptyString;
     server.BitbucketUser := EmptyString; server.BitbucketWebhookSecret := EmptyString;
     server.CustomStageNames := None; server.DataDir := EmptyString;
     server.GithubHostname := EmptyString; server.GithubTeamWhitelist := EmptyString;
     server.GithubToken := "token"; server.GithubUser := "@";
     server.GithubWebhookSecret := EmptyString; server.GitlabHostname := EmptyString;
     server.GitlabToken := EmptyString; server.GitlabUser := EmptyString;
     server.GitlabWebhookSecret := EmptyString; server.LogLevel := "info";
     server.Port := 0; server.RepoConfig := "atlantis.yaml";
     server.RepoWhitelist := "github.com/acme/*";
     server.SSLCertFile := EmptyString; server.SSLKeyFile := EmptyString;
     server.WakeWord := EmptyString |}.

(** A command whose flags decode to [github_only] and whose server
    starts. *)
Definition server_cmd : cmd.ServerCmd :=
  {| cmd.ServerCreator_ := {| cmd.NewServer := fun _ _ => inl {| cmd.Start := None |} |};
     cmd.Viper_ := {| cmd.GetString := fun _ => EmptyString;
                      cmd.ReadInConfig := fun _ => None;
                      cmd.Unmarshal := (github_only, None) |};
     cmd.SilenceOutput := false;
     cmd.AtlantisVersion_ := "0.5.0" |}.

End Sample.

(** * Properties *)

(** ** Workflow references *)

Section WorkflowReferences.
Import Go yaml.
Context `{L : Lib}.

Lemma rangeFindKey_elem_of (keys : list string) (workflow : string) :
  rangeFindKey keys workflow = true <-> workflow ∈ keys.
Proof.
  induction keys as [|k rest IH]; simpl.
  - split; [discriminate | intros H; inversion H].
  - destruct (decide (k = workflow)) as [->|Hne].
    + split; [intros _; left | reflexivity].
    + rewrite IH. split.
      * intros H; now right.
      * intros H. inversion H; subst; [congruence | assumption].
Qed.

(** The range loop finds the name exactly when it is a key of the
    mapping, whatever the order of the iteration. *)
Lemma rangeFindKey_keys (workflows : gmap string raw.Workflow) (workflow : string) :
  rangeFindKey (map_to_list workflows).*1 workflow = true
  <-> is_Some (workflows !! workflow).
Proof.
  rewrite rangeFindKey_elem_of, list_elem_of_fmap. split.
  - intros [[k v] [-> Hin]]. apply elem_of_map_to_list in Hin. simpl. eauto.
  - intros [v Hv]. exists (workflow, v). split; [reflexivity|].
    now apply elem_of_map_to_list.
Qed.

Lemma validateWorkflowExists_undefined project workflows name :
  raw.Workflow_ref project = Some name ->
  workflows !! name = None ->
  validateWorkflowExists project workflows
  = Some (errorString ("workflow " +:+ strconv_Quote name +:+ " is not defined")).
Proof.
  intros Href Hnone. unfold validateWorkflowExists. rewrite Href.
  destruct (rangeFindKey _ name) eqn:Hfind; [|reflexivity].
  apply rangeFindKey_keys in Hfind. rewrite Hnone in Hfind.
  destruct Hfind as [? ?]; discriminate.
Qed.

Lemma validateWorkflowExists_defined project workflows :
  (raw.Workflow_ref project = None
   \/ exists name, raw.Workflow_ref project = Some name /\ is_Some (workflows !! name)) ->
  validateWorkflowExists project workflows = None.
Proof.
  unfold validateWorkflowExists. intros [->|(name & -> & Hsome)]; [reflexivity|].
  apply rangeFindKey_keys in Hsome. now rewrite Hsome.
Qed.

(** The per-project check fails only on a reference to a missing key. *)
Lemma validateWorkflowExists_error project workflows err :
  validateWorkflowExists project workflows = Some err ->
  exists name,
    raw.Workflow_ref project = Some name /\ workflows !! name = None
    /\ err = errorString ("workflow " +:+ strconv_Quote name +:+ " is not defined").
Proof.
  unfold validateWorkflowExists. destruct (raw.Workflow_ref project) as [name|]; [|discriminate].
  destruct (rangeFindKey _ name) eqn:Hfind; [discriminate|].
  intros [= <-]. exists name. repeat split.
  destruct (workflows !! name) eqn:Hl; [|reflexivity].
  assert (is_Some (workflows !! name)) as Hs by (rewrite Hl; eauto).
  apply rangeFindKey_keys in Hs. congruence.
Qed.

Lemma validateWorkflows_loop_all_defined projects workflows :
  (forall project, project ∈ projects -> validateWorkflowExists project workflows = None) ->
  validateWorkflows_loop projects workflows = None.
Proof.
  induction projects as [|p rest IH]; intros Hall; simpl; [reflexivity|].
  rewrite (Hall p) by left. apply IH. intros q Hq. apply Hall. now right.
Qed.

Lemma validateWorkflows_loop_some_undefined projects workflows :
  (exists project, project ∈ projects /\ validateWorkflowExists project workflows <> None) ->
  exists project err,
    project ∈ projects
    /\ validateWorkflowExists project workflows = Some err
    /\ validateWorkflows_loop projects workflows = Some err.
Proof.
  induction projects as [|p rest IH]; intros (q & Hq & Hbad).
  - inversion Hq.
  - simpl. destruct (validateWorkflowExists p workflows) as [err|] eqn:Hp.
    + exists p, err. repeat split; [left | assumption].
    + destruct IH as (q' & err & Hin & Hq' & Hloop).
      * exists q. split; [|assumption].
        inversion Hq; subst; [congruence | assumption].
      * exists q', err. repeat split; [now right | assumption | assumption].
Qed.

(** C6. When some project of the configuration references a workflow
    name that is not a key of the workflow mapping, [validateWorkflows]
    fails with the error [workflow <quoted name> is not defined], where
    the name is one that a project references and the mapping lacks (the
    first such in project order); a project that references no workflow,
    or one that is a key of the mapping, passes the per-project check, and
    a configuration of such projects passes [validateWorkflows]. *)
Theorem undefined_workflow_reference_fails (config : raw.Config) :
  (forall project name,
      project ∈ raw.Projects config ->
      raw.Workflow_ref project = Some name ->
      raw.Workflows config !! name = None ->
      exists offender missing,
        offender ∈ raw.Projects config
        /\ raw.Workflow_ref offender = Some missing
        /\ raw.Workflows config !! missing = None
        /\ validateWorkflows config
           = Some (errorString ("workflow " +:+ strconv_Quote missing +:+ " is not defined")))
  /\ (forall project name,
         raw.Workflow_ref project = Some name ->
         raw.Workflows config !! name = None ->
         validateWorkflowExists project (raw.Workflows config)
         = Some (errorString ("workflow " +:+ strconv_Quote name +:+ " is not defined")))
  /\ (forall project,
         (raw.Workflow_ref project = None
          \/ exists name, raw.Workflow_ref project = Some name
                          /\ is_Some (raw.Workflows config !! name)) ->
         validateWorkflowExists project (raw.Workflows config) = None)
  /\ ((forall project, project ∈ raw.Projects config ->
         raw.Workflow_ref project = None
         \/ exists name, raw.Workflow_ref project = Some name
                         /\ is_Some (raw.Workflows config !! name)) ->
      validateWorkflows config = None).
Proof.
  split; [|split; [|split]].
  - intros project name Hin Href Hnone.
    destruct (validateWorkflows_loop_some_undefined (raw.Projects config) (raw.Workflows config))
      as (q & err & Hq & Herr & Hloop).
    { exists project. split; [assumption|].
      rewrite (validateWorkflowExists_undefined _ _ _ Href Hnone). discriminate. }
    apply validateWorkflowExists_error in Herr as (missing & Hr & Hm & ->).
    exists q, missing. repeat split; assumption.
  - intros project name. apply validateWorkflowExists_undefined.
  - intros project. apply validateWorkflowExists_defined.
  - intros Hall. apply validateWorkflows_loop_all_defined.
    intros project Hin. apply validateWorkflowExists_defined. now apply Hall.
Qed.

End WorkflowReferences.

(** ** Project names *)

Section ProjectNames.
Import Go yaml config_props.
Context `{L : Lib}.

Lemma seen_insert_true (seen : gmap string bool) (name m : string) :
  default false (seen !! m) = true ->
  default false (<[name := true]> seen !! m) = true.
Proof.
  intros Hm. destruct (decide (name = m)) as [->|Hne].
  - now rewrite lookup_insert_eq.
  - now rewrite lookup_insert_ne.
Qed.

(** A name already marked in [seen] and assigned to a remaining project
    stops the first loop. *)
Lemma uniqueNames_loop_seen projects (seen : gmap string bool) m :
  default false (seen !! m) = true ->
  (exists q, q ∈ projects /\ valid.Name q = Some m) ->
  uniqueNames_loop projects seen <> None.
Proof.
  revert seen. induction projects as [|p rest IH]; intros seen Hm (q & Hq & Hname).
  - inversion Hq.
  - simpl. destruct (valid.Name p) as [name|] eqn:Hp.
    + destruct (default false (seen !! name)) eqn:Hseen; [discriminate|].
      apply IH.
      * now apply seen_insert_true.
      * exists q. split; [|assumption].
        inversion Hq; subst; [|assumption]. congruence.
    + apply IH; [assumption|]. exists q. split; [|assumption].
      inversion Hq; subst; [congruence | assumption].
Qed.

Lemma assigned_twice_tail p rest m :
  assigned_twice rest m -> assigned_twice (p :: rest) m.
Proof.
  intros (i & j & a & b & Hij & Hi & Hj & Ha & Hb).
  exists (S i), (S j), a, b. repeat split; try assumption. lia.
Qed.

Lemma uniqueNames_loop_dup projects (seen : gmap string bool) m :
  assigned_twice projects m -> uniqueNames_loop projects seen <> None.
Proof.
  revert seen. induction projects as [|p rest IH];
    intros seen (i & j & a & b & Hij & Hi & Hj & Ha & Hb).
  - discriminate.
  - destruct j as [|j]; [lia|]. simpl in Hj.
    destruct i as [|i]; simpl in Hi.
    + injection Hi as ->. simpl. rewrite Ha.
      destruct (default false (seen !! m)); [discriminate|].
      apply uniqueNames_loop_seen with (m := m).
      * now rewrite lookup_insert_eq.
      * exists b. split; [|assumption]. apply list_elem_of_lookup. eauto.
    + assert (assigned_twice rest m) as Hrest.
      { exists i, j, a, b. repeat split; try assumption. lia. }
      simpl. destruct (valid.Name p) as [name|].
      * destruct (default false (seen !! name)); [discriminate|]. now apply IH.
      * now apply IH.
Qed.

(** Whenever the first loop stops, it reports a name that was already
    marked or that two projects of the list carry. *)
Lemma uniqueNames_loop_error projects (seen : gmap string bool) err :
  uniqueNames_loop projects seen = Some err ->
  exists m,
    err = errorString ("found two or more projects with name "
                       +:+ strconv_Quote m +:+ "; project names must be unique")
    /\ ((default false (seen !! m) = true
         /\ exists q, q ∈ projects /\ valid.Name q = Some m)
        \/ assigned_twice projects m).
Proof.
  revert seen. induction projects as [|p rest IH]; intros seen; simpl; [discriminate|].
  destruct (valid.Name p) as [name|] eqn:Hp.
  - destruct (default false (seen !! name)) eqn:Hseen.
    + intros [= <-]. exists name. split; [reflexivity|]. left.
      split; [assumption|]. exists p. split; [left | assumption].
    + intros Hloop. apply IH in Hloop as (m & -> & Hm). exists m. split; [reflexivity|].
      destruct Hm as [(Hins & q & Hq & Hname)|Hdup].
      * destruct (decide (name = m)) as [->|Hne].
        -- right. apply list_elem_of_lookup in Hq as [j Hj].
           exists 0, (S j), p, q. repeat split; try assumption. lia.
        -- left. rewrite lookup_insert_ne in Hins by assumption.
           split; [assumption|]. exists q. split; [now right | assumption].
      * right. now apply assigned_twice_tail.
  - intros Hloop. apply IH in Hloop as (m & -> & Hm). exists m. split; [reflexivity|].
    destruct Hm as [(Hins & q & Hq & Hname)|Hdup].
    + left. split; [assumption|]. exists q. split; [now right | assumption].
    + right. now apply assigned_twice_tail.
Qed.

(** The second loop only ever reports the unnamed-project error. *)
Lemma allNamed_loop_error projects (names : gmap string (list string)) err :
  allNamed_loop projects names = Some err ->
  exists q,
    q ∈ projects /\ valid.Name q = None
    /\ err = errorString ("there are two or more projects with dir: "
               +:+ strconv_Quote (valid.Dir q) +:+ " workspace: "
               +:+ strconv_Quote (valid.Workspace q)
               +:+ " that are not all named; they must have a 'name' key so they can be targeted for apply's separately").
Proof.
  revert names. induction projects as [|p rest IH]; intros names; simpl; [discriminate|].
  destruct (_ && _) eqn:Hcond.
  - intros [= <-]. exists p. split; [left|]. split; [|reflexivity].
    apply andb_true_iff in Hcond as [_ Hnil].
    destruct (valid.Name p); [discriminate | reflexivity].
  - intros Hloop. apply IH in Hloop as (q & Hq & Hname & ->).
    exists q. split; [now right|]. split; [assumption | reflexivity].
Qed.

(** C7. If two projects of a configuration carry the same assigned name
    (whatever their directories and workspaces), [validateProjectNames]
    fails with the error [found two or more projects with name <quoted
    name>; project names must be unique] for a name that two projects
    carry; if no name is assigned twice, the uniqueness loop runs to its
    end and [validateProjectNames] never returns that error. *)
Theorem duplicate_project_names_fail (config : valid.Config) :
  (forall name,
      assigned_twice (valid.Projects config) name ->
      exists dup,
        assigned_twice (valid.Projects config) dup
        /\ validateProjectNames config
           = Some (errorString ("found two or more projects with name "
                                +:+ strconv_Quote dup +:+ "; project names must be unique")))
  /\ (names_distinct (valid.Projects config) ->
      uniqueNames_loop (valid.Projects config) ∅ = None
      /\ forall name,
          validateProjectNames config
          <> Some (errorString ("found two or more projects with name "
                                +:+ strconv_Quote name +:+ "; project names must be unique"))).
Proof.
  split.
  - intros name Hdup. unfold validateProjectNames.
    destruct (uniqueNames_loop (valid.Projects config) ∅) as [err|] eqn:Hloop.
    + apply uniqueNames_loop_error in Hloop as (m & -> & [(Hseen & _)|Hm]).
      * rewrite lookup_empty in Hseen. discriminate.
      * exists m. split; [assumption | reflexivity].
    + exfalso. exact (uniqueNames_loop_dup _ ∅ _ Hdup Hloop).
  - intros Hdistinct.
    assert (uniqueNames_loop (valid.Projects config) ∅ = None) as Hnone.
    { destruct (uniqueNames_loop (valid.Projects config) ∅) as [err|] eqn:Hloop; [|reflexivity].
      apply uniqueNames_loop_error in Hloop as (m & _ & [(Hseen & _)|Hm]).
      - rewrite lookup_empty in Hseen. discriminate.
      - destruct Hm as (i & j & a & b & Hij & Hi & Hj & Ha & Hb).
        specialize (Hdistinct i j a b m Hi Hj Ha Hb). lia. }
    split; [assumption|].
    intros name. unfold validateProjectNames. rewrite Hnone.
    destruct (allNamed_loop (valid.Projects config) ∅) as [err|] eqn:Hloop; [|discriminate].
    apply allNamed_loop_error in Hloop as (q & _ & _ & ->).
    simpl. discriminate.
Qed.

End ProjectNames.

(** ** Shared directory and workspace *)

Section SharedDirWorkspace.
Import Go yaml config_props.
Context `{L : Lib}.

Lemma occupied_insert names k k' name :
  k' = k \/ occupied names k ->
  occupied (<[k' := (default [] (names !! k') ++ [name])%list]> names) k.
Proof.
  unfold occupied. intros H. destruct (decide (k' = k)) as [->|Hne].
  - rewrite lookup_insert_eq. simpl. rewrite length_app. simpl.
    apply Nat.ltb_lt. lia.
  - rewrite lookup_insert_ne by assumption. destruct H; [congruence | assumption].
Qed.

Lemma allNamed_loop_occupied projects names q :
  q ∈ projects -> valid.Name q = None -> occupied names (dirWorkspaceKey q) ->
  allNamed_loop projects names <> None.
Proof.
  revert names. induction projects as [|p rest IH]; intros names Hq Hname Hocc.
  - inversion Hq.
  - simpl. destruct (_ && _) eqn:Hcond; [discriminate|].
    inversion Hq; subst.
    + unfold occupied in Hocc. rewrite Hocc, Hname in Hcond. discriminate.
    + apply IH; try assumption. apply occupied_insert. now right.
Qed.

Lemma allNamed_loop_after projects names q :
  unnamed_after_same_pair projects q -> allNamed_loop projects names <> None.
Proof.
  revert names. induction projects as [|p rest IH];
    intros names (i & j & a & Hij & Hi & Hj & Hdir & Hws & Hname).
  - discriminate.
  - destruct j as [|j]; [lia|]. simpl in Hj.
    simpl. destruct (_ && _) eqn:Hcond; [discriminate|].
    destruct i as [|i]; simpl in Hi.
    + injection Hi as ->. apply allNamed_loop_occupied with (q := q).
      * apply list_elem_of_lookup. eauto.
      * assumption.
      * apply occupied_insert. left. unfold dirWorkspaceKey. now rewrite Hdir, Hws.
    + apply IH. exists i, j, a. repeat split; try assumption. lia.
Qed.

(** The ordering the second loop does catch: with distinct names, an
    unnamed project that comes after a project with its directory and
    workspace makes validation fail with the error that names the
    directory and workspace of an unnamed project. *)
Lemma unnamed_after_same_pair_fails (config : valid.Config) q :
  uniqueNames_loop (valid.Projects config) ∅ = None ->
  unnamed_after_same_pair (valid.Projects config) q ->
  exists q',
    q' ∈ valid.Projects config /\ valid.Name q' = None
    /\ validateProjectNames config
       = Some (errorString ("there are two or more projects with dir: "
               +:+ strconv_Quote (valid.Dir q') +:+ " workspace: "
               +:+ strconv_Quote (valid.Workspace q')
               +:+ " that are not all named; they must have a 'name' key so they can be targeted for apply's separately")).
Proof.
  intros Huniq Hafter. unfold validateProjectNames. rewrite Huniq.
  destruct (allNamed_loop (valid.Projects config) ∅) as [err|] eqn:Hloop.
  - apply allNamed_loop_error in Hloop as (q' & Hq' & Hname & ->).
    exists q'. repeat split; assumption.
  - exfalso. exact (allNamed_loop_after _ ∅ _ Hafter Hloop).
Qed.

End SharedDirWorkspace.

Section UnnamedFirst.
Import Go yaml config_props.
Context `{L : Lib}.

(** C3.  The configuration [Sample.unnamed_then_named] has two projects
    with the same directory and workspace, the first without a name and
    the second named: [validateProjectNames] accepts it.  With the same
    two projects in the other order it reports the error naming the
    directory and the workspace. *)
Theorem unnamed_project_first_is_accepted :
  (exists p q,
      valid.Projects Sample.unnamed_then_named = [p; q]
      /\ valid.Dir p = valid.Dir q /\ valid.Workspace p = valid.Workspace q
      /\ valid.Name p = None)
  /\ validateProjectNames Sample.unnamed_then_named = None
  /\ validateProjectNames Sample.named_then_unnamed
     = Some (errorString ("there are two or more projects with dir: "
               +:+ strconv_Quote "." +:+ " workspace: " +:+ strconv_Quote "default"
               +:+ " that are not all named; they must have a 'name' key so they can be targeted for apply's separately")).
Proof.
  split; [|split].
  - exists Sample.unnamed_project, Sample.staging_project. repeat split.
  - vm_compute. reflexivity.
  - vm_compute. reflexivity.
Qed.

End UnnamedFirst.

(** ** The validation pipeline and the configuration file *)

Section Pipeline.
Import Go yaml.
Context `{L : Lib} `{D : Deps}.

(** C5. [parseAndValidate] runs its stages in a fixed order and stops at
    the first that fails, returning that stage's error whatever the later
    stages would answer: the strict parse [yaml.UnmarshalStrict]; the
    schema validation [Validate] of the raw structure (under the error tag
    [yaml], set once the parse has succeeded); the workflow
    cross-reference check [validateWorkflows]; the transformation
    [ToValid]; the name check [validateProjectNames] on the transformed
    configuration.  When every stage passes, the transformed configuration
    is returned with no error. *)
Theorem parseAndValidate_stage_order (configData : list Byte.byte) (tag : string) :
  (forall rawConfig err,
      yaml_UnmarshalStrict configData = (rawConfig, Some err) ->
      parseAndValidate configData tag = ((valid.zero, Some err), tag))
  /\ (forall rawConfig,
         yaml_UnmarshalStrict configData = (rawConfig, None) ->
         (forall err,
             raw_Validate "yaml" rawConfig = Some err ->
             parseAndValidate configData tag = ((valid.zero, Some err), "yaml"))
         /\ (raw_Validate "yaml" rawConfig = None ->
             (forall err,
                 validateWorkflows rawConfig = Some err ->
                 parseAndValidate configData tag = ((valid.zero, Some err), "yaml"))
             /\ (validateWorkflows rawConfig = None ->
                 (forall err,
                     validateProjectNames (raw_ToValid rawConfig) = Some err ->
                     parseAndValidate configData tag = ((valid.zero, Some err), "yaml"))
                 /\ (validateProjectNames (raw_ToValid rawConfig) = None ->
                     parseAndValidate configData tag
                     = ((raw_ToValid rawConfig, None), "yaml"))))).
Proof.
  unfold parseAndValidate. split.
  - intros rawConfig err ->. reflexivity.
  - intros rawConfig ->. split.
    + intros err ->. reflexivity.
    + intros ->. split.
      * intros err ->. reflexivity.
      * intros ->. split.
        -- intros err ->. reflexivity.
        -- intros ->. reflexivity.
Qed.

Lemma parseAndValidate_error_zero configData tag config err tag' :
  parseAndValidate configData tag = ((config, Some err), tag') ->
  config = valid.zero.
Proof.
  unfold parseAndValidate.
  destruct (yaml_UnmarshalStrict configData) as [rawConfig [e|]]; [congruence|].
  destruct (raw_Validate _ rawConfig); [congruence|].
  destruct (validateWorkflows rawConfig); [congruence|].
  destruct (validateProjectNames _); [congruence|discriminate].
Qed.

(** The three ways out of [ReadConfig] with an error, and the one
    without. *)
Lemma ReadConfig_cases fs repoDir repoConfig tag :
  let configFile := configFilePath repoDir repoConfig in
  (exists e, ioutil_ReadFile fs configFile = ([], Some e)
             /\ os_IsNotExist (Some e) = true
             /\ ReadConfig fs repoDir repoConfig tag = ((valid.zero, Some e), tag))
  \/ (exists e, ioutil_ReadFile fs configFile = ([], Some e)
                /\ os_IsNotExist (Some e) = false
                /\ ReadConfig fs repoDir repoConfig tag
                   = ((valid.zero,
                       Some (withMessage e ("unable to read " +:+ repoConfig +:+ " file"))), tag))
  \/ (exists data e config tag',
         ioutil_ReadFile fs configFile = (data, None)
         /\ parseAndValidate data tag = ((config, Some e), tag')
         /\ ReadConfig fs repoDir repoConfig tag
            = ((valid.zero, Some (withMessage e ("parsing " +:+ repoConfig))), tag'))
  \/ (exists data config tag',
         ioutil_ReadFile fs configFile = (data, None)
         /\ parseAndValidate data tag = ((config, None), tag')
         /\ ReadConfig fs repoDir repoConfig tag = ((config, None), tag')).
Proof.
  intros configFile. unfold ReadConfig. fold configFile.
  assert (forall data e, ioutil_ReadFile fs configFile = (data, Some e) -> data = []) as Hnil.
  { unfold ioutil_ReadFile. intros data e.
    destruct (fs configFile) as [e'| |d [|]]; congruence. }
  destruct (ioutil_ReadFile fs configFile) as [data [e|]] eqn:Hread.
  - rewrite (Hnil _ _ eq_refl). simpl notnil. cbv beta iota.
    destruct (os_IsNotExist (Some e)) eqn:Hne; simpl.
    + left. eauto.
    + right. left. eauto.
  - simpl. destruct (parseAndValidate data tag) as [[config [e|]] tag'] eqn:Hparse; simpl.
    + right. right. left. exists data, e, config, tag'. auto.
    + right. right. right. exists data, config, tag'. auto.
Qed.

(** C10. Whenever [parseAndValidate] or [ReadConfig] returns an error,
    the configuration returned with it is the zero value
    [valid.Config{}]. *)
Theorem error_returns_zero_config :
  (forall configData tag config err tag',
      parseAndValidate configData tag = ((config, Some err), tag') ->
      config = valid.zero)
  /\ (forall fs repoDir repoConfig tag config err tag',
         ReadConfig fs repoDir repoConfig tag = ((config, Some err), tag') ->
         config = valid.zero).
Proof.
  split.
  - apply parseAndValidate_error_zero.
  - intros fs repoDir repoConfig tag config err tag' Hread.
    destruct (ReadConfig_cases fs repoDir repoConfig tag)
      as [(e & _ & _ & H)|[(e & _ & _ & H)|[(d & e & c & t & _ & _ & H)|(d & c & t & _ & _ & H)]]];
      rewrite H in Hread; congruence.
Qed.

Lemma ReadFile_error_not_absent fs name cause :
  fs name <> LFail ENOENT ->
  ioutil_ReadFile fs name = ([], Some cause) ->
  os_IsNotExist (Some cause) = false.
Proof.
  unfold ioutil_ReadFile. intros Hfs.
  destruct (fs name) as [e| |data [|]]; try discriminate; intros [= <-]; try reflexivity.
  destruct e; try reflexivity. now contradiction Hfs.
Qed.

(** C8. When the configuration file does not exist (the lookup of its
    path fails with ENOENT), [HasConfigFile] returns [(false, nil)] and
    [ReadConfig] returns the zero configuration with the read error
    itself, not wrapped, which [os.IsNotExist] recognises.  When the path
    resolves otherwise and the file cannot be read (a directory, a file
    that may not be opened, a lookup failure other than absence),
    [ReadConfig] returns the zero configuration with the read error wrapped
    under [unable to read <name> file]; when the file is read and its
    content fails parsing or validation, [ReadConfig] returns the zero
    configuration with that error wrapped under [parsing <name>]; in both
    cases [os.IsNotExist] rejects the returned error.  So, unless the file
    is absent, every error of [ReadConfig] is one of these two wrapped
    errors. *)
Theorem missing_config_is_distinguished (fs : FileSystem) (repoDir repoConfig tag : string) :
  (fs (configFilePath repoDir repoConfig) = LFail ENOENT ->
   HasConfigFile fs repoDir repoConfig = (false, None)
   /\ ReadConfig fs repoDir repoConfig tag
      = ((valid.zero, Some (PathError "open" (configFilePath repoDir repoConfig) ENOENT)), tag)
   /\ os_IsNotExist (Some (PathError "open" (configFilePath repoDir repoConfig) ENOENT)) = true)
  /\ ((fs (configFilePath repoDir repoConfig) = LDir
       \/ (exists data, fs (configFilePath repoDir repoConfig) = LFile data false)
       \/ (exists e, fs (configFilePath repoDir repoConfig) = LFail e /\ e <> ENOENT)) ->
      exists cause,
        ioutil_ReadFile fs (configFilePath repoDir repoConfig) = ([], Some cause)
        /\ ReadConfig fs repoDir repoConfig tag
           = ((valid.zero,
               Some (withMessage cause ("unable to read " +:+ repoConfig +:+ " file"))), tag)
        /\ os_IsNotExist
             (Some (withMessage cause ("unable to read " +:+ repoConfig +:+ " file"))) = false)
  /\ (forall data config cause tag',
         fs (configFilePath repoDir repoConfig) = LFile data true ->
         parseAndValidate data tag = ((config, Some cause), tag') ->
         ReadConfig fs repoDir repoConfig tag
         = ((valid.zero, Some (withMessage cause ("parsing " +:+ repoConfig))), tag')
         /\ os_IsNotExist (Some (withMessage cause ("parsing " +:+ repoConfig))) = false)
  /\ (fs (configFilePath repoDir repoConfig) <> LFail ENOENT ->
      forall config err tag',
        ReadConfig fs repoDir repoConfig tag = ((config, Some err), tag') ->
        os_IsNotExist (Some err) = false
        /\ exists cause,
            (err = withMessage cause ("unable to read " +:+ repoConfig +:+ " file")
             /\ ioutil_ReadFile fs (configFilePath repoDir repoConfig) = ([], Some cause))
            \/ (err = withMessage cause ("parsing " +:+ repoConfig)
                /\ exists data, ioutil_ReadFile fs (configFilePath repoDir repoConfig) = (data, None)
                                /\ snd (fst (parseAndValidate data tag)) = Some cause)).
Proof.
  split; [|split; [|split]].
  - intros Hfs. split; [|split].
    + unfold HasConfigFile, os_Stat. rewrite Hfs. reflexivity.
    + unfold ReadConfig, ioutil_ReadFile. rewrite Hfs. reflexivity.
    + reflexivity.
  - intros Hfs.
    assert (exists cause,
               ioutil_ReadFile fs (configFilePath repoDir repoConfig) = ([], Some cause)
               /\ os_IsNotExist (Some cause) = false) as (cause & Hread & Hpresent).
    { unfold ioutil_ReadFile.
      destruct Hfs as [->|[[data ->]|(e & -> & Hne)]]; eexists; split; try reflexivity.
      destruct e; try reflexivity. now contradiction Hne. }
    exists cause. split; [exact Hread|]. split; [|reflexivity].
    unfold ReadConfig. rewrite Hread. simpl notnil. rewrite Hpresent. reflexivity.
  - intros data config cause tag' Hfs Hparse. split; [|reflexivity].
    unfold ReadConfig, ioutil_ReadFile. rewrite Hfs. simpl. rewrite Hparse. reflexivity.
  - intros Hfs config err tag' Hread.
    destruct (ReadConfig_cases fs repoDir repoConfig tag)
      as [(e & Hr & Hne & H)|[(e & Hr & Hne & H)|[(d & e & c & t & Hr & Hp & H)|(d & c & t & _ & _ & H)]]];
      rewrite H in Hread.
    + rewrite (ReadFile_error_not_absent _ _ _ Hfs Hr) in Hne. discriminate.
    + injection Hread as <- <- <-. split; [reflexivity|]. exists e. left. auto.
    + injection Hread as <- <- <-. split; [reflexivity|]. exists e. right.
      split; [reflexivity|]. exists d. rewrite Hp. auto.
    + discriminate.
Qed.

End Pipeline.

(** ** The apply step *)

Section ApplyStep.
Import Go runtime.
Context `{L : Lib} `{D : Deps}.

(** The path at which [Run] expects the plan. *)
Abbreviation planPathOf ctx path :=
  (filepath_Join path (GetPlanFilename (Workspace ctx) (ProjectConfig ctx))).

(** The arguments [Run] hands to the executor. *)
Abbreviation applyArgs ctx extraArgs path :=
  (["apply"; "-input=false"; "-no-color"] ++ extraArgs ++ CommentArgs ctx
     ++ [strconv_Quote (planPathOf ctx path)])%list.

Lemma Run_plan_missing a fs ctx extraArgs path tr :
  (forall data readable, fs (planPathOf ctx path) <> LFile data readable) ->
  Run a fs ctx extraArgs path tr
  = ((EmptyString,
      Some (errorString ("no plan found at path " +:+ strconv_Quote (RepoRelDir ctx)
              +:+ " and workspace " +:+ strconv_Quote (Workspace ctx)
              +:+ " – did you run plan?"))), tr).
Proof.
  intros Hfs. unfold Run, os_Stat.
  destruct (fs (planPathOf ctx path)) as [e| |data readable]; try reflexivity.
  exfalso. exact (Hfs _ _ eq_refl).
Qed.

Lemma Run_plan_present a fs ctx extraArgs path tr data readable :
  fs (planPathOf ctx path) = LFile data readable ->
  let tfVersion := match ProjectConfig ctx with
                   | Some cfg => valid.TerraformVersion cfg
                   | None => None
                   end in
  let answer := RunCommandWithVersion (TerraformExecutor a) tr (Log ctx) path
                  (applyArgs ctx extraArgs path) tfVersion (Workspace ctx) in
  Run a fs ctx extraArgs path tr
  = (answer,
     (tr ++ ExecCall (Log ctx) path (applyArgs ctx extraArgs path) tfVersion (Workspace ctx)
         :: match snd answer with
            | None => [LogInfo (Log ctx) "apply successful"]
            | Some _ => []
            end)%list).
Proof.
  intros Hfs tfVersion answer. unfold Run, os_Stat. rewrite Hfs. simpl orb. cbv iota.
  assert (match ProjectConfig ctx with
          | Some cfg => match valid.TerraformVersion cfg with
                        | Some v => Some v
                        | None => None
                        end
          | None => None
          end = tfVersion) as ->.
  { unfold tfVersion. destruct (ProjectConfig ctx) as [cfg|]; [|reflexivity].
    destruct (valid.TerraformVersion cfg); reflexivity. }
  rewrite <- !app_assoc.
  unfold mbind, M_bind, bind, call_RunCommandWithVersion, history, emit, mret, M_ret, ret,
    Log_Info, emit.
  subst answer. simpl.
  destruct (RunCommandWithVersion _ _ _ _ _ _ _) as [out [tfErr|]]; simpl.
  - reflexivity.
  - rewrite <- app_assoc. reflexivity.
Qed.

(** C1. If the plan path, computed from the working path and the plan
    file name of the context's workspace and project configuration, does
    not resolve (it does not exist, or the lookup fails otherwise) or is a
    directory, [Run] returns the empty output and the error [no plan found
    at path <quoted RepoRelDir> and workspace <quoted Workspace> - did you
    run plan?], and leaves the trace of events as it was: the executor is
    not called. *)
Theorem apply_without_plan_fails a fs ctx extraArgs path tr :
  ((exists e, fs (planPathOf ctx path) = LFail e) \/ fs (planPathOf ctx path) = LDir) ->
  Run a fs ctx extraArgs path tr
  = ((EmptyString,
      Some (errorString ("no plan found at path " +:+ strconv_Quote (RepoRelDir ctx)
              +:+ " and workspace " +:+ strconv_Quote (Workspace ctx)
              +:+ " – did you run plan?"))), tr).
Proof.
  intros H. apply Run_plan_missing. intros data readable Hfile.
  destruct H as [[e He]|Hd]; congruence.
Qed.

(** C2. If a file (not a directory) is found at the plan path, [Run]
    calls the executor exactly once, with the context's logger, the
    working path, the argument list [apply -input=false -no-color]
    followed by the extra arguments, the comment arguments and the quoted
    plan path as the last argument, the selected version, and the
    context's workspace; it returns the executor's output and error unchanged, and logs [apply
    successful] after the call exactly when the error is nil. *)
Theorem apply_with_plan_runs_executor a fs ctx extraArgs path tr data readable :
  fs (planPathOf ctx path) = LFile data readable ->
  exists out tfErr,
    RunCommandWithVersion (TerraformExecutor a) tr (Log ctx) path
      (["apply"; "-input=false"; "-no-color"] ++ extraArgs ++ CommentArgs ctx
         ++ [strconv_Quote (planPathOf ctx path)])%list
      (match ProjectConfig ctx with
       | Some cfg => valid.TerraformVersion cfg
       | None => None
       end) (Workspace ctx) = (out, tfErr)
    /\ Run a fs ctx extraArgs path tr
       = ((out, tfErr),
          (tr ++ ExecCall (Log ctx) path
                   (["apply"; "-input=false"; "-no-color"] ++ extraArgs ++ CommentArgs ctx
                      ++ [strconv_Quote (planPathOf ctx path)])%list
                   (match ProjectConfig ctx with
                    | Some cfg => valid.TerraformVersion cfg
                    | None => None
                    end) (Workspace ctx)
              :: match tfErr with
                 | None => [LogInfo (Log ctx) "apply successful"]
                 | Some _ => []
                 end)%list).
Proof.
  intros Hfs. pose proof (Run_plan_present a fs ctx extraArgs path tr data readable Hfs) as HRun.
  cbv zeta in HRun.
  destruct (RunCommandWithVersion (TerraformExecutor a) tr (Log ctx) path _ _ (Workspace ctx))
    as [out tfErr] eqn:Hanswer.
  exists out, tfErr. split; [reflexivity|]. rewrite HRun. reflexivity.
Qed.

(** C9, as amended.  The version [Run] passes to the executor is the
    project's declared terraform version when the project configuration is
    present and declares one, and nil otherwise: [ApplyStepRunner] holds no
    default version, and the nil version leaves the choice to the executor.
    Every executor call that [Run] adds to the trace carries that version,
    and with a plan file in place there is such a call. *)
Theorem apply_version_selection a fs ctx extraArgs path tr :
  let selected : option Version :=
    match ProjectConfig ctx with
    | Some cfg =>
        match valid.TerraformVersion cfg with
        | Some v => Some v
        | None => None
        end
    | None => None
    end in
  exists new,
    snd (Run a fs ctx extraArgs path tr) = (tr ++ new)%list
    /\ (forall log p args v ws, ExecCall log p args v ws ∈ new -> v = selected)
    /\ ((exists data readable, fs (planPathOf ctx path) = LFile data readable) ->
        exists log p args ws, ExecCall log p args selected ws ∈ new).
Proof.
  intros selected.
  assert (selected = match ProjectConfig ctx with
                     | Some cfg => valid.TerraformVersion cfg
                     | None => None
                     end) as Hsel.
  { unfold selected. destruct (ProjectConfig ctx) as [cfg|]; [|reflexivity].
    destruct (valid.TerraformVersion cfg); reflexivity. }
  destruct (fs (planPathOf ctx path)) as [e| |data readable] eqn:Hfs.
  - exists []. rewrite Run_plan_missing by congruence. simpl. rewrite app_nil_r.
    split; [reflexivity|]. split.
    + intros ? ? ? ? ? Hin. inversion Hin.
    + intros (d & r & Hd). discriminate.
  - exists []. rewrite Run_plan_missing by congruence. simpl. rewrite app_nil_r.
    split; [reflexivity|]. split.
    + intros ? ? ? ? ? Hin. inversion Hin.
    + intros (d & r & Hd). discriminate.
  - pose proof (Run_plan_present a fs ctx extraArgs path tr data readable Hfs) as HRun.
    cbv zeta in HRun. rewrite HRun, <- Hsel. simpl snd.
    eexists. split; [reflexivity|]. split.
    + intros log p args v ws Hin.
      apply elem_of_cons in Hin as [Heq|Hin]; [congruence|].
      clear HRun. revert Hin.
      destruct (RunCommandWithVersion _ _ _ _ _ _ _) as [out [tfErr|]]; simpl; intros Hin.
      * inversion Hin.
      * apply list_elem_of_singleton in Hin. discriminate.
    + intros _. do 4 eexists. left.
Qed.

(** With nil for the default, the specification's wording of the version
    selection holds of [Run]. *)
Lemma Run_passes_declared_or_nil : runtime_props.passes_declared_or_default None.
Proof.
  intros a fs ctx extraArgs path log p args v ws Hin.
  assert (match ProjectConfig ctx with
          | Some cfg => match valid.TerraformVersion cfg with
                        | Some declared => Some declared
                        | None => None
                        end
          | None => None
          end = match ProjectConfig ctx with
                | Some cfg => valid.TerraformVersion cfg
                | None => None
                end) as ->.
  { destruct (ProjectConfig ctx) as [cfg|]; [|reflexivity].
    destruct (valid.TerraformVersion cfg); reflexivity. }
  destruct (fs (planPathOf ctx path)) as [e| |data readable] eqn:Hfs.
  - rewrite Run_plan_missing in Hin by congruence. inversion Hin.
  - rewrite Run_plan_missing in Hin by congruence. inversion Hin.
  - pose proof (Run_plan_present a fs ctx extraArgs path [] data readable Hfs) as HRun.
    cbv zeta in HRun. rewrite HRun in Hin. clear HRun. simpl in Hin.
    apply elem_of_cons in Hin as [Heq|Hin]; [congruence|].
    revert Hin.
    destruct (RunCommandWithVersion _ _ _ _ _ _ _) as [out [tfErr|]]; simpl; intros Hin.
    + inversion Hin.
    + apply list_elem_of_singleton in Hin. discriminate.
Qed.

End ApplyStep.

(** ** Mutual exclusion of the lock manager *)

Section LockManager.
Import locking.

Lemma lookup_lock_None_locks_on t arena :
  lookup_lock t arena = None <-> locks_on t arena = [].
Proof.
  unfold lookup_lock, locks_on. induction arena as [|l rest IH]; simpl; [tauto|].
  destruct (bool_decide (key l = t)); [split; discriminate | exact IH].
Qed.

Lemma locks_on_app t (a b : Arena) :
  locks_on t (a ++ b)%list = (locks_on t a ++ locks_on t b)%list.
Proof. apply List.filter_app. Qed.

Lemma locks_on_filter_length t (Q : Lock -> bool) arena :
  List.length (locks_on t (List.filter Q arena)) <= List.length (locks_on t arena).
Proof.
  unfold locks_on. induction arena as [|l rest IH]; simpl; [lia|].
  destruct (Q l); simpl; destruct (bool_decide (key l = t)); simpl; lia.
Qed.

Lemma lookup_lock_app t (a b : Arena) l :
  lookup_lock t a = Some l -> lookup_lock t (a ++ b)%list = Some l.
Proof.
  unfold lookup_lock. induction a as [|x rest IH]; simpl; [discriminate|].
  destruct (bool_decide (key x = t)); [trivial | exact IH].
Qed.

(** Filtering the arena keeps the lock found for [t] if it keeps that
    lock record. *)
Lemma lookup_lock_filter t (Q : Lock -> bool) arena l :
  lookup_lock t arena = Some l -> Q l = true ->
  lookup_lock t (List.filter Q arena) = Some l.
Proof.
  unfold lookup_lock. induction arena as [|x rest IH]; simpl; [discriminate|].
  destruct (bool_decide (key x = t)) eqn:Hx.
  - intros [= ->] HQ. rewrite HQ. simpl. now rewrite Hx.
  - intros Hfind HQ. destruct (Q x); simpl; [rewrite Hx|]; now apply IH.
Qed.

Lemma lookup_lock_key t arena l : lookup_lock t arena = Some l -> key l = t.
Proof.
  unfold lookup_lock. intros H. apply List.find_some in H as [_ H].
  now apply bool_decide_eq_true in H.
Qed.

Lemma step_at_most_one op arena :
  at_most_one_lock arena -> at_most_one_lock (snd (step op arena)).
Proof.
  intros Hone t. destruct op as [t' p now|t' p|p]; simpl.
  - unfold TryAcquire. destruct (lookup_lock t' arena) as [l|] eqn:Hl.
    + destruct (bool_decide (pull l = p)); simpl; apply Hone.
    + simpl. rewrite locks_on_app, length_app.
      unfold locks_on at 2. simpl. destruct (bool_decide (t' = t)) eqn:Ht; simpl.
      * apply bool_decide_eq_true in Ht as ->.
        apply lookup_lock_None_locks_on in Hl. rewrite Hl. simpl. lia.
      * specialize (Hone t). lia.
  - unfold Release. destruct (lookup_lock t' arena) as [l|]; [|apply Hone].
    destruct (bool_decide (pull l = p)); simpl; [|apply Hone].
    etransitivity; [apply locks_on_filter_length | apply Hone].
  - unfold ReleaseAllForPullRequest.
    etransitivity; [apply locks_on_filter_length | apply Hone].
Qed.

Lemma run_cons op rest arena :
  run (op :: rest) arena
  = (fst (step op arena) :: fst (run rest (snd (step op arena))),
     snd (run rest (snd (step op arena)))).
Proof.
  simpl. destruct (step op arena) as [r a]. simpl.
  destruct (run rest a) as [rs a']. reflexivity.
Qed.

Lemma run_at_most_one ops arena :
  at_most_one_lock arena -> at_most_one_lock (snd (run ops arena)).
Proof.
  revert arena. induction ops as [|op rest IH]; intros arena Hone; [exact Hone|].
  rewrite run_cons. simpl. apply IH. now apply step_at_most_one.
Qed.

(** One atomic operation that does not make [a] give up [t]: an
    acquisition on [t] is answered as it must be, and [a] still holds
    [t] afterwards. *)
Lemma step_while_held t a op arena :
  holder t arena = Some a -> gives_up t a op = false ->
  answer_while_held t a op (fst (step op arena))
  /\ holder t (snd (step op arena)) = Some a.
Proof.
  unfold holder. intros Hheld Hkeep.
  destruct (lookup_lock t arena) as [l|] eqn:Hl; [|discriminate].
  injection Hheld as Hpull.
  destruct op as [t' p now|t' p|p]; simpl in *.
  - unfold TryAcquire. destruct (bool_decide (t' = t)) eqn:Ht.
    + apply bool_decide_eq_true in Ht as ->. rewrite Hl, Hpull.
      destruct (decide (a = p)) as [<-|Hne].
      * rewrite !bool_decide_eq_true_2 by reflexivity. simpl.
        rewrite Hl. simpl. now rewrite Hpull.
      * rewrite (bool_decide_eq_false_2 (a = p)) by assumption.
        rewrite (bool_decide_eq_false_2 (p = a)) by congruence. simpl.
        rewrite Hl. simpl. now rewrite Hpull.
    + split; [exact I|].
      destruct (lookup_lock t' arena) as [l'|].
      * destruct (bool_decide (pull l' = p)); simpl; rewrite Hl; simpl; now rewrite Hpull.
      * simpl. rewrite (lookup_lock_app _ _ _ _ Hl). simpl. now rewrite Hpull.
  - split; [exact I|]. unfold Release.
    destruct (lookup_lock t' arena) as [l'|] eqn:Hl'.
    + destruct (bool_decide (pull l' = p)) eqn:Hp; simpl.
      * apply bool_decide_eq_true in Hp.
        assert (t' <> t) as Hne.
        { intros ->. rewrite Hl in Hl'. injection Hl' as <-.
          rewrite !bool_decide_eq_true_2 in Hkeep by congruence. discriminate. }
        erewrite lookup_lock_filter; [simpl; now rewrite Hpull | exact Hl |].
        rewrite (lookup_lock_key _ _ _ Hl).
        rewrite bool_decide_eq_false_2 by congruence. reflexivity.
      * rewrite Hl. simpl. now rewrite Hpull.
    + simpl. rewrite Hl. simpl. now rewrite Hpull.
  - split; [exact I|]. unfold ReleaseAllForPullRequest.
    erewrite lookup_lock_filter; [simpl; now rewrite Hpull | exact Hl |].
    rewrite Hpull. apply bool_decide_eq_false in Hkeep.
    rewrite bool_decide_eq_false_2 by congruence. reflexivity.
Qed.

Lemma run_while_held t a ops arena :
  holder t arena = Some a ->
  forallb (fun op => negb (gives_up t a op)) ops = true ->
  Forall2 (answer_while_held t a) ops (fst (run ops arena))
  /\ holder t (snd (run ops arena)) = Some a.
Proof.
  revert arena. induction ops as [|op rest IH]; intros arena Hheld Hkeep.
  - split; [constructor | exact Hheld].
  - simpl in Hkeep. apply andb_true_iff in Hkeep as [Hop Hrest].
    apply negb_true_iff in Hop.
    destruct (step_while_held t a op arena Hheld Hop) as [Hans Hheld'].
    destruct (IH _ Hheld' Hrest) as [Hall Hfinal].
    rewrite run_cons. simpl. split; [constructor; assumption | assumption].
Qed.

(** C4. In an arena reached from the empty one by any sequence of
    operations and in which pull request [A] holds tuple [T], let any
    sequence of atomic operations follow (any interleaving of the
    concurrent callers) in which [A] does not give [T] up.  Then every
    [TryAcquire(T, B)] with [B <> A] in it is answered
    [DeniedHeldByOther A], every [TryAcquire(T, A)] is answered
    [AlreadyHeldBySelf], and [A] still holds [T] at the end; and every
    arena reachable from the empty one has at most one lock per tuple. *)
Theorem lock_held_excludes_others (past ops : list Op) (T : Tuple) (A : nat) :
  holder T (snd (run past [])) = Some A ->
  forallb (fun op => negb (gives_up T A op)) ops = true ->
  Forall2 (answer_while_held T A) ops (fst (run ops (snd (run past []))))
  /\ holder T (snd (run ops (snd (run past [])))) = Some A
  /\ (forall any, at_most_one_lock (snd (run any []))).
Proof.
  intros Hheld Hkeep.
  destruct (run_while_held T A ops _ Hheld Hkeep) as [Hans Hfinal].
  split; [exact Hans|]. split; [exact Hfinal|].
  intros any. apply run_at_most_one. intros t. simpl. lia.
Qed.

End LockManager.

(** ** What an accepted configuration satisfies *)

Section AcceptedConfigurations.
Import Go yaml config_props.
Context `{L : Lib}.

Lemma occupied_insert_inv names k k' name :
  occupied (<[k' := (default [] (names !! k') ++ [name])%list]> names) k ->
  k' = k \/ occupied names k.
Proof.
  unfold occupied. destruct (decide (k' = k)) as [->|Hne]; [now left|].
  rewrite lookup_insert_ne by assumption. now right.
Qed.

Lemma unnamed_after_same_key_tail p rest q :
  unnamed_after_same_key rest q -> unnamed_after_same_key (p :: rest) q.
Proof.
  intros (i & j & a & Hij & Hi & Hj & Hkey & Hname).
  exists (S i), (S j), a. repeat split; try assumption. lia.
Qed.

Lemma allNamed_loop_after_key projects names q :
  unnamed_after_same_key projects q -> allNamed_loop projects names <> None.
Proof.
  revert names. induction projects as [|p rest IH];
    intros names (i & j & a & Hij & Hi & Hj & Hkey & Hname).
  - discriminate.
  - destruct j as [|j]; [lia|]. simpl in Hj.
    simpl. destruct (_ && _) eqn:Hcond; [discriminate|].
    destruct i as [|i]; simpl in Hi.
    + injection Hi as ->. apply allNamed_loop_occupied with (q := q).
      * apply list_elem_of_lookup. eauto.
      * assumption.
      * apply occupied_insert. now left.
    + apply IH. exists i, j, a. repeat split; try assumption. lia.
Qed.

(** Whenever the second loop stops, it is at an unnamed project whose key
    was already in the map or is the key of an earlier project. *)
Lemma allNamed_loop_stops_at projects names err :
  allNamed_loop projects names = Some err ->
  exists q,
    valid.Name q = None
    /\ ((occupied names (dirWorkspaceKey q) /\ q ∈ projects)
        \/ unnamed_after_same_key projects q).
Proof.
  revert names. induction projects as [|p rest IH]; intros names; simpl; [discriminate|].
  destruct (_ && _) eqn:Hcond.
  - intros _. apply andb_true_iff in Hcond as [Hocc Hnil].
    exists p. split.
    + destruct (valid.Name p); [discriminate | reflexivity].
    + left. split; [exact Hocc | left].
  - intros Hloop. apply IH in Hloop as (q & Hname & [[Hocc Hq]|Hafter]).
    + exists q. split; [assumption|].
      apply occupied_insert_inv in Hocc as [Hkey|Hocc].
      * right. apply list_elem_of_lookup in Hq as [j Hj].
        exists 0, (S j), p. repeat split; try assumption. lia.
      * left. split; [assumption | now right].
    + exists q. split; [assumption|]. right. now apply unnamed_after_same_key_tail.
Qed.

Lemma uniqueNames_loop_None_iff projects :
  uniqueNames_loop projects ∅ = None <-> names_distinct projects.
Proof.
  split.
  - intros Hloop i j p q name Hi Hj Hp Hq.
    destruct (Nat.lt_trichotomy i j) as [Hlt|[Heq|Hgt]]; [|assumption|].
    + exfalso. apply (uniqueNames_loop_dup projects ∅ name); [|assumption].
      exists i, j, p, q. auto.
    + exfalso. apply (uniqueNames_loop_dup projects ∅ name); [|assumption].
      exists j, i, q, p. auto.
  - intros Hdistinct.
    destruct (uniqueNames_loop projects ∅) as [err|] eqn:Hloop; [|reflexivity].
    apply uniqueNames_loop_error in Hloop as (m & _ & [(Hseen & _)|Hm]).
    + rewrite lookup_empty in Hseen. discriminate.
    + destruct Hm as (i & j & a & b & Hij & Hi & Hj & Ha & Hb).
      specialize (Hdistinct i j a b m Hi Hj Ha Hb). lia.
Qed.

Lemma allNamed_loop_None_iff projects :
  allNamed_loop projects ∅ = None <-> forall q, ~ unnamed_after_same_key projects q.
Proof.
  split.
  - intros Hloop q Hafter. exact (allNamed_loop_after_key _ ∅ _ Hafter Hloop).
  - intros Hnone. destruct (allNamed_loop projects ∅) as [err|] eqn:Hloop; [|reflexivity].
    apply allNamed_loop_stops_at in Hloop as (q & _ & [[Hocc _]|Hafter]).
    + unfold occupied in Hocc. rewrite lookup_empty in Hocc. discriminate.
    + exfalso. exact (Hnone q Hafter).
Qed.

Lemma validateProjectNames_None_sound (config : valid.Config) :
  validateProjectNames config = None ->
  names_distinct (valid.Projects config)
  /\ forall q, ~ unnamed_after_same_key (valid.Projects config) q.
Proof.
  unfold validateProjectNames. intros Hnone.
  destruct (uniqueNames_loop (valid.Projects config) ∅) eqn:Hunique; [discriminate|].
  split; [now apply uniqueNames_loop_None_iff | now apply allNamed_loop_None_iff].
Qed.

(** X1. [validateProjectNames] accepts a configuration exactly when no
    name is assigned to two projects and no unnamed project comes after a
    project with the same [dir/workspace] key. *)
Theorem validateProjectNames_accepts_iff (config : valid.Config) :
  validateProjectNames config = None
  <-> names_distinct (valid.Projects config)
      /\ forall q, ~ unnamed_after_same_key (valid.Projects config) q.
Proof.
  split; [apply validateProjectNames_None_sound|].
  intros [Hdistinct Hnamed]. unfold validateProjectNames.
  apply uniqueNames_loop_None_iff in Hdistinct. rewrite Hdistinct.
  now apply allNamed_loop_None_iff.
Qed.

Lemma append_cons x (a b : string) : String x a +:+ b = String x (a +:+ b).
Proof. reflexivity. Qed.

Lemma append_assoc (a b c : string) : (a +:+ b) +:+ c = a +:+ (b +:+ c).
Proof.
  induction a as [|x a IH]; [reflexivity|]. now rewrite !append_cons, IH.
Qed.

Lemma length_append (a b : string) :
  String.length (a +:+ b) = String.length a + String.length b.
Proof.
  induction a as [|x a IH]; [reflexivity|]. rewrite append_cons. simpl. now rewrite IH.
Qed.

(** X2. Projects are told apart by the text [dir/workspace], not by the
    pair: a named project in directory [d/x] and workspace [w] followed by
    an unnamed project in directory [d] and workspace [x/w] is rejected
    with the error naming [d] and [x/w], although the two directories
    differ. *)
Theorem slash_in_workspace_collides (d x w name : string) :
  let first := {| valid.Dir := d +:+ "/" +:+ x; valid.Workspace := w;
                  valid.Name := Some name; valid.Workflow_ref := None;
                  valid.TerraformVersion := None |} in
  let second := {| valid.Dir := d; valid.Workspace := x +:+ "/" +:+ w;
                   valid.Name := None; valid.Workflow_ref := None;
                   valid.TerraformVersion := None |} in
  valid.Dir first <> valid.Dir second
  /\ validateProjectNames {| valid.Projects := [first; second]; valid.Workflows := ∅ |}
     = Some (errorString ("there are two or more projects with dir: "
               +:+ strconv_Quote d +:+ " workspace: " +:+ strconv_Quote (x +:+ "/" +:+ w)
               +:+ " that are not all named; they must have a 'name' key so they can be targeted for apply's separately")).
Proof.
  intros first second. split.
  - simpl. intros Heq.
    assert (String.length (d +:+ "/" +:+ x) = String.length d) as Hlen by now rewrite Heq.
    rewrite !length_append in Hlen. simpl in Hlen. lia.
  - assert (dirWorkspaceKey second = dirWorkspaceKey first) as Hkey.
    { unfold dirWorkspaceKey. simpl. now rewrite !append_assoc. }
    unfold validateProjectNames. simpl. rewrite lookup_empty. simpl.
    rewrite lookup_empty. simpl. rewrite Hkey, lookup_insert_eq. reflexivity.
Qed.

End AcceptedConfigurations.

(** ** What the configuration readers return *)

Section Readers.
Import Go yaml config_props.
Context `{L : Lib} `{D : Deps}.

Lemma validateWorkflows_None_defined (config : raw.Config) project name :
  validateWorkflows config = None ->
  project ∈ raw.Projects config ->
  raw.Workflow_ref project = Some name ->
  is_Some (raw.Workflows config !! name).
Proof.
  intros Hnone Hin Href.
  destruct (raw.Workflows config !! name) as [w|] eqn:Hlookup; [eauto|].
  exfalso.
  destruct (validateWorkflows_loop_some_undefined (raw.Projects config) (raw.Workflows config))
    as (q & err & _ & _ & Hloop).
  { exists project. split; [assumption|].
    rewrite (validateWorkflowExists_undefined _ _ _ Href Hlookup). discriminate. }
  unfold validateWorkflows in Hnone. congruence.
Qed.

Lemma parseAndValidate_success configData tag config tag' :
  parseAndValidate configData tag = ((config, None), tag') ->
  tag' = "yaml"
  /\ exists rawConfig,
      yaml_UnmarshalStrict configData = (rawConfig, None)
      /\ raw_Validate "yaml" rawConfig = None
      /\ validateWorkflows rawConfig = None
      /\ config = raw_ToValid rawConfig
      /\ validateProjectNames config = None.
Proof.
  unfold parseAndValidate.
  destruct (yaml_UnmarshalStrict configData) as [rawConfig [e|]]; [discriminate|].
  destruct (raw_Validate "yaml" rawConfig) eqn:Hschema; [discriminate|].
  destruct (validateWorkflows rawConfig) eqn:Hwf; [discriminate|].
  destruct (validateProjectNames (raw_ToValid rawConfig)) eqn:Hnames; [discriminate|].
  intros [= <- <-]. split; [reflexivity|]. exists rawConfig. auto.
Qed.

(** X3. A configuration that [parseAndValidate] or [ReadConfig] returns
    without an error is the transformation of a raw configuration that was
    decoded from the data, passed the schema validation under the error tag
    [yaml] and references only workflows that are keys of its workflow
    mapping; in the returned configuration no name is assigned twice and no
    unnamed project comes after a project with the same [dir/workspace]
    key. *)
Theorem accepted_configuration_is_sound :
  (forall configData tag config tag',
      parseAndValidate configData tag = ((config, None), tag') ->
      tag' = "yaml"
      /\ names_distinct (valid.Projects config)
      /\ (forall q, ~ unnamed_after_same_key (valid.Projects config) q)
      /\ exists rawConfig,
          yaml_UnmarshalStrict configData = (rawConfig, None)
          /\ raw_Validate "yaml" rawConfig = None
          /\ config = raw_ToValid rawConfig
          /\ forall project name,
              project ∈ raw.Projects rawConfig ->
              raw.Workflow_ref project = Some name ->
              is_Some (raw.Workflows rawConfig !! name))
  /\ (forall fs repoDir repoConfig tag config tag',
         ReadConfig fs repoDir repoConfig tag = ((config, None), tag') ->
         names_distinct (valid.Projects config)
         /\ (forall q, ~ unnamed_after_same_key (valid.Projects config) q)
         /\ exists data,
             fs (configFilePath repoDir repoConfig) = LFile data true
             /\ parseAndValidate data tag = ((config, None), tag')).
Proof.
  split.
  - intros configData tag config tag' Hparse.
    apply parseAndValidate_success in Hparse
      as (-> & rawConfig & Hdecode & Hschema & Hwf & -> & Hnames).
    apply validateProjectNames_None_sound in Hnames as [Hdistinct Hnamed].
    split; [reflexivity|]. split; [assumption|]. split; [assumption|].
    exists rawConfig. repeat split; try assumption.
    intros project name. now apply validateWorkflows_None_defined.
  - intros fs repoDir repoConfig tag config tag' Hread.
    destruct (ReadConfig_cases fs repoDir repoConfig tag)
      as [(e & _ & _ & H)|[(e & _ & _ & H)|[(d & e & c & t & _ & _ & H)|(d & c & t & Hr & Hp & H)]]];
      rewrite H in Hread; try discriminate.
    injection Hread as <- <-.
    pose proof Hp as Hsound.
    apply parseAndValidate_success in Hsound as (_ & rawConfig & _ & _ & _ & _ & Hnames).
    apply validateProjectNames_None_sound in Hnames as [Hdistinct Hnamed].
    split; [assumption|]. split; [assumption|].
    exists d. split; [|assumption].
    unfold ioutil_ReadFile in Hr.
    destruct (fs (configFilePath repoDir repoConfig)) as [e'| |data [|]]; try discriminate.
    now injection Hr as ->.
Qed.

(** X4. The two ways to detect a missing configuration file agree:
    [HasConfigFile] returns [(false, nil)] exactly when the error of
    [ReadConfig] is one that [os.IsNotExist] recognises. *)
Theorem missing_file_detection_agrees (fs : FileSystem) (repoDir repoConfig tag : string) :
  HasConfigFile fs repoDir repoConfig = (false, None)
  <-> os_IsNotExist (snd (fst (ReadConfig fs repoDir repoConfig tag))) = true.
Proof.
  unfold HasConfigFile, ReadConfig, os_Stat, ioutil_ReadFile.
  destruct (fs (configFilePath repoDir repoConfig)) as [e| |data [|]]; simpl.
  - destruct e; simpl; split; intros H; try reflexivity; discriminate.
  - split; discriminate.
  - destruct (parseAndValidate data tag) as [[config [e|]] tag']; simpl; split; discriminate.
  - split; discriminate.
Qed.

(** X5. [HasConfigFile] reports a configuration file for anything found
    at the path, also a directory or a file that may not be read; for
    those [ReadConfig] fails with the read error wrapped under [unable to
    read <name> file], and returns the zero configuration. *)
Theorem present_but_unreadable (fs : FileSystem) (repoDir repoConfig tag : string) :
  (fs (configFilePath repoDir repoConfig) = LDir ->
   HasConfigFile fs repoDir repoConfig = (true, None)
   /\ ReadConfig fs repoDir repoConfig tag
      = ((valid.zero,
          Some (withMessage (PathError "read" (configFilePath repoDir repoConfig) EISDIR)
                  ("unable to read " +:+ repoConfig +:+ " file"))), tag))
  /\ (forall data,
         fs (configFilePath repoDir repoConfig) = LFile data false ->
         HasConfigFile fs repoDir repoConfig = (true, None)
         /\ ReadConfig fs repoDir repoConfig tag
            = ((valid.zero,
                Some (withMessage (PathError "open" (configFilePath repoDir repoConfig) EACCES)
                        ("unable to read " +:+ repoConfig +:+ " file"))), tag)).
Proof.
  unfold HasConfigFile, ReadConfig, os_Stat, ioutil_ReadFile. split.
  - intros ->. split; reflexivity.
  - intros data ->. split; reflexivity.
Qed.

End Readers.

(** ** The server command: defaults and validation *)

Section ServerDefaults.
Import Go server cmd cmd_props.
Context `{E : Env} `{L : Lib}.

(** X6. [setDefaults] is idempotent. *)
Theorem setDefaults_idempotent (c : UserConfig) :
  setDefaults (setDefaults c) = setDefaults c.
Proof.
  destruct c. unfold setDefaults. simpl.
  f_equal; try reflexivity;
    try (repeat case_bool_decide; simplify_eq; reflexivity || congruence).
  destruct CustomStageNames0 as [names|]; [|reflexivity].
  repeat case_bool_decide; simplify_eq; reflexivity || congruence.
Qed.

(** X7. After [setDefaults] the data directory, the two hostnames, the log
    level, the team whitelist, the repository configuration name and the
    wake word are not empty, the port is not 0 and the stage names are not
    nil; each of these fields keeps a value that was set, and so does the
    Bitbucket base URL. *)
Theorem setDefaults_fills_only_blanks (c : UserConfig) :
  (DataDir (setDefaults c) <> EmptyString
   /\ GithubHostname (setDefaults c) <> EmptyString
   /\ GitlabHostname (setDefaults c) <> EmptyString
   /\ LogLevel (setDefaults c) <> EmptyString
   /\ GithubTeamWhitelist (setDefaults c) <> EmptyString
   /\ RepoConfig (setDefaults c) <> EmptyString
   /\ WakeWord (setDefaults c) <> EmptyString
   /\ Port (setDefaults c) <> 0%Z
   /\ CustomStageNames (setDefaults c) <> None)
  /\ (DataDir c <> EmptyString -> DataDir (setDefaults c) = DataDir c)
  /\ (GithubHostname c <> EmptyString -> GithubHostname (setDefaults c) = GithubHostname c)
  /\ (GitlabHostname c <> EmptyString -> GitlabHostname (setDefaults c) = GitlabHostname c)
  /\ (BitbucketBaseURL c <> EmptyString -> BitbucketBaseURL (setDefaults c) = BitbucketBaseURL c)
  /\ (LogLevel c <> EmptyString -> LogLevel (setDefaults c) = LogLevel c)
  /\ (Port c <> 0%Z -> Port (setDefaults c) = Port c)
  /\ (GithubTeamWhitelist c <> EmptyString ->
      GithubTeamWhitelist (setDefaults c) = GithubTeamWhitelist c)
  /\ (RepoConfig c <> EmptyString -> RepoConfig (setDefaults c) = RepoConfig c)
  /\ (WakeWord c <> EmptyString -> WakeWord (setDefaults c) = WakeWord c)
  /\ (forall names, CustomStageNames c = Some names -> names <> [] ->
      CustomStageNames (setDefaults c) = Some names).
Proof.
  unfold setDefaults. simpl.
  repeat split; try (case_bool_decide; [discriminate | assumption]);
    try (intros Hset; case_bool_decide; [congruence | reflexivity]).
  { destruct (CustomStageNames c) as [names|]; [case_bool_decide|]; discriminate. }
  intros names Hsome Hne. rewrite Hsome. case_bool_decide as Hlen; [|reflexivity].
  destruct names; [congruence | discriminate].
Qed.

Lemma eqb_blank_iff (a b : string) :
  Bool.eqb (blank a) (blank b) = true <-> (a = EmptyString <-> b = EmptyString).
Proof.
  unfold blank. repeat case_bool_decide; simpl; split; try tauto; try discriminate.
Qed.

Lemma blank_true (s : string) : blank s = true <-> s = EmptyString.
Proof. unfold blank. apply bool_decide_eq_true. Qed.

Lemma blank_false (s : string) : blank s = false <-> s <> EmptyString.
Proof. unfold blank. apply bool_decide_eq_false. Qed.

Lemma logLevel_check (level : string) :
  negb (bool_decide (level = "debug")) && negb (bool_decide (level = "info"))
    && negb (bool_decide (level = "warn")) && negb (bool_decide (level = "error")) = false
  <-> level ∈ ["debug"; "info"; "warn"; "error"].
Proof.
  rewrite !elem_of_cons, elem_of_nil.
  repeat case_bool_decide; simpl; split; try tauto; try discriminate.
Qed.

Lemma validate_None_iff (c : UserConfig) : validate c = None <-> acceptable c.
Proof.
  unfold validate, acceptable. split.
  - intros Hv.
    destruct (negb (bool_decide (LogLevel c = "debug")) && _ && _ && _) eqn:Hlog;
      [discriminate|]. apply logLevel_check in Hlog.
    destruct (Bool.eqb (blank (SSLKeyFile c)) _) eqn:Hssl; [|discriminate].
    apply eqb_blank_iff in Hssl.
    destruct (Bool.eqb (blank (GithubUser c)) _) eqn:Hgh; [|discriminate].
    destruct (Bool.eqb (blank (GitlabUser c)) _) eqn:Hgl; [|discriminate].
    destruct (Bool.eqb (blank (BitbucketUser c)) _) eqn:Hbb; [|discriminate].
    apply eqb_blank_iff in Hgh, Hgl, Hbb. simpl in Hv.
    destruct (blank (GithubUser c) && _ && _) eqn:Hany; [discriminate|].
    destruct (blank (RepoWhitelist c)) eqn:Hwl; [discriminate|].
    apply blank_false in Hwl.
    destruct (strings.Contains _ _) eqn:Hscheme; [discriminate|].
    destruct (bool_decide (BitbucketBaseURL c = DefaultBitbucketBaseURL) && _) eqn:Hcloud;
      [discriminate|].
    destruct (url_Parse (BitbucketBaseURL c)) as [parsed [e|]] eqn:Hparse; [discriminate|].
    destruct (negb (bool_decide (Scheme parsed = "http")) && _) eqn:Hhttp; [discriminate|].
    destruct (negb (bool_decide (RepoConfig c = DefaultRepoConfig)) && _) eqn:Hrepo;
      [discriminate|].
    repeat split; try assumption; try tauto.
    + apply andb_false_iff in Hany as [Hany|Hany];
        [apply andb_false_iff in Hany as [Hany|Hany]|]; apply blank_false in Hany; tauto.
    + intros Hdefault. apply andb_false_iff in Hcloud as [Hcloud|Hcloud].
      * apply bool_decide_eq_false in Hcloud. contradiction.
      * apply negb_false_iff, blank_true in Hcloud. assumption.
    + exists parsed. split; [reflexivity|].
      apply andb_false_iff in Hhttp as [Hhttp|Hhttp];
        apply negb_false_iff, bool_decide_eq_true in Hhttp; tauto.
    + intros Hcustom. apply andb_false_iff in Hrepo as [Hrepo|Hrepo].
      * apply negb_false_iff, bool_decide_eq_true in Hrepo. contradiction.
      * now apply negb_false_iff in Hrepo.
  - intros (Hlog & Hssl & Hgh & Hgl & Hbb & Hany & Hwl & Hscheme & Hcloud
            & (parsed & Hparse & Hhttp) & Hrepo).
    apply logLevel_check in Hlog. rewrite Hlog. clear Hlog.
    apply eqb_blank_iff in Hssl, Hgh, Hgl, Hbb. rewrite Hssl, Hgh, Hgl, Hbb. simpl.
    assert (blank (GithubUser c) && blank (GitlabUser c) && blank (BitbucketUser c) = false)
      as ->.
    { destruct Hany as [H|[H|H]]; apply blank_false in H; rewrite H;
        rewrite ?andb_false_r; reflexivity. }
    apply blank_false in Hwl. rewrite Hwl, Hscheme.
    assert (bool_decide (BitbucketBaseURL c = DefaultBitbucketBaseURL)
            && negb (blank (BitbucketWebhookSecret c)) = false) as ->.
    { destruct (decide (BitbucketBaseURL c = DefaultBitbucketBaseURL)) as [Hd|Hd].
      - rewrite (bool_decide_eq_true_2 _ Hd). simpl.
        apply negb_false_iff, blank_true. now apply Hcloud.
      - now rewrite (bool_decide_eq_false_2 _ Hd). }
    rewrite Hparse.
    assert (negb (bool_decide (Scheme parsed = "http"))
            && negb (bool_decide (Scheme parsed = "https")) = false) as ->.
    { destruct Hhttp as [->| ->]; reflexivity. }
    assert (negb (bool_decide (RepoConfig c = DefaultRepoConfig))
            && negb (AllowRepoConfig c) = false) as ->.
    { destruct (decide (RepoConfig c = DefaultRepoConfig)) as [Hd|Hd].
      - now rewrite (bool_decide_eq_true_2 _ Hd).
      - rewrite (bool_decide_eq_false_2 _ Hd). simpl. now rewrite (Hrepo Hd). }
    reflexivity.
Qed.

(** X8. [validate] returns nil exactly for the configurations that meet
    every requirement of [acceptable]; a configuration it accepts has, for
    GitHub, GitLab or Bitbucket, both a user and a token, and has no user
    without a token and no token without a user. *)
Theorem validate_accepts_iff (c : UserConfig) :
  (validate c = None <-> acceptable c)
  /\ (validate c = None ->
      ((GithubUser c <> EmptyString /\ GithubToken c <> EmptyString)
       \/ (GitlabUser c <> EmptyString /\ GitlabToken c <> EmptyString)
       \/ (BitbucketUser c <> EmptyString /\ BitbucketToken c <> EmptyString))
      /\ (GithubUser c = EmptyString <-> GithubToken c = EmptyString)
      /\ (GitlabUser c = EmptyString <-> GitlabToken c = EmptyString)
      /\ (BitbucketUser c = EmptyString <-> BitbucketToken c = EmptyString)).
Proof.
  split; [apply validate_None_iff|].
  intros Hvalid. apply validate_None_iff in Hvalid
    as (_ & _ & Hgh & Hgl & Hbb & Hany & _).
  split; [|tauto].
  destruct Hany as [Huser|[Huser|Huser]]; [left | right; left | right; right]; tauto.
Qed.

End ServerDefaults.

(** ** The server command: from the flags to the server *)

Section ServerRun.
Import Go server cmd cmd_props.
Context `{E : Env} `{L : Lib}.

Lemma default_logLevel_iff (level : string) :
  (if bool_decide (level = EmptyString) then DefaultLogLevel else level)
    ∈ ["debug"; "info"; "warn"; "error"]
  <-> level ∈ [EmptyString; "debug"; "info"; "warn"; "error"].
Proof.
  rewrite !elem_of_cons, !elem_of_nil. case_bool_decide as Hb.
  - subst level. unfold DefaultLogLevel. split; [intros _; now left|].
    intros _. right. now left.
  - split; [intros H; now right | intros [H|H]; [contradiction | assumption]].
Qed.

Lemma default_or_given_iff (value default : string) :
  (if bool_decide (value = EmptyString) then default else value) = default
  <-> value = EmptyString \/ value = default.
Proof.
  case_bool_decide as Hb; split.
  - intros _. now left.
  - reflexivity.
  - intros Hdefault. now right.
  - intros [Hblank|Hdefault]; [contradiction | assumption].
Qed.

Lemma default_or_given_neq_iff (value default : string) :
  (if bool_decide (value = EmptyString) then default else value) <> default
  <-> value <> EmptyString /\ value <> default.
Proof. rewrite default_or_given_iff. tauto. Qed.

(** X9. What a user has to supply for [validate] to accept the
    configuration after [setDefaults]: the log level, the Bitbucket base
    URL and the repository configuration name may be left empty, the other
    requirements are those of [validate]. *)
Theorem defaults_then_validate (c : UserConfig) :
  validate (setDefaults c) = None
  <-> LogLevel c ∈ [EmptyString; "debug"; "info"; "warn"; "error"]
      /\ (SSLKeyFile c = EmptyString <-> SSLCertFile c = EmptyString)
      /\ (GithubUser c = EmptyString <-> GithubToken c = EmptyString)
      /\ (GitlabUser c = EmptyString <-> GitlabToken c = EmptyString)
      /\ (BitbucketUser c = EmptyString <-> BitbucketToken c = EmptyString)
      /\ (GithubUser c <> EmptyString \/ GitlabUser c <> EmptyString
          \/ BitbucketUser c <> EmptyString)
      /\ RepoWhitelist c <> EmptyString
      /\ strings.Contains (RepoWhitelist c) "://" = false
      /\ (BitbucketBaseURL c = EmptyString \/ BitbucketBaseURL c = DefaultBitbucketBaseURL ->
          BitbucketWebhookSecret c = EmptyString)
      /\ (exists parsed,
             url_Parse (if bool_decide (BitbucketBaseURL c = EmptyString)
                        then DefaultBitbucketBaseURL else BitbucketBaseURL c) = (parsed, None)
             /\ (Scheme parsed = "http" \/ Scheme parsed = "https"))
      /\ (RepoConfig c <> EmptyString -> RepoConfig c <> DefaultRepoConfig ->
          AllowRepoConfig c = true).
Proof.
  rewrite validate_None_iff. unfold acceptable, setDefaults. simpl.
  rewrite default_logLevel_iff, default_or_given_iff, default_or_given_neq_iff. tauto.
Qed.

Lemma TrimPrefix_at_only : strings.TrimPrefix "@" "@" = EmptyString.
Proof. reflexivity. Qed.

(** X10. [validate] does not survive [trimAtSymbolFromUsers]: a
    configuration that [validate] accepts and whose only user is the
    GitHub user [@] has no user left after the trimming, and [validate]
    rejects the trimmed configuration; [run] validates before it trims. *)
Theorem lone_at_user_vanishes (c : UserConfig) :
  validate c = None ->
  GithubUser c = "@" -> GitlabUser c = EmptyString -> BitbucketUser c = EmptyString ->
  GithubUser (trimAtSymbolFromUsers c) = EmptyString
  /\ GitlabUser (trimAtSymbolFromUsers c) = EmptyString
  /\ BitbucketUser (trimAtSymbolFromUsers c) = EmptyString
  /\ validate (trimAtSymbolFromUsers c) = Some vcsErr.
Proof.
  intros Hvalid Hgh Hgl Hbb.
  apply validate_None_iff in Hvalid
    as (Hlog & Hssl & Hghp & _ & _ & _ & _ & _ & _ & _ & _).
  assert (GithubToken c <> EmptyString) as Htoken.
  { intros Hblank. apply Hghp in Hblank. rewrite Hgh in Hblank. discriminate. }
  unfold trimAtSymbolFromUsers. simpl. rewrite Hgh, Hgl, Hbb.
  repeat split; try reflexivity.
  unfold validate. simpl.
  apply logLevel_check in Hlog. rewrite Hlog.
  apply eqb_blank_iff in Hssl. rewrite Hssl. simpl.
  apply blank_false in Htoken. rewrite Htoken. reflexivity.
Qed.

(** X11. [securityWarnings] writes nothing when output is silenced, never
    more than three lines, and nothing but lines on standard error. *)
Theorem securityWarnings_bounded (s : ServerCmd) (c : UserConfig) :
  (SilenceOutput s = true -> securityWarnings s c = [])
  /\ List.length (securityWarnings s c) <= 3
  /\ Forall (fun e => is_Stderr e = true) (securityWarnings s c).
Proof.
  unfold securityWarnings.
  destruct (SilenceOutput s), (blank (GithubUser c)), (blank (GithubWebhookSecret c)),
    (blank (GitlabUser c)), (blank (GitlabWebhookSecret c)), (blank (BitbucketUser c)),
    (blank (BitbucketWebhookSecret c)),
    (bool_decide (BitbucketBaseURL c = DefaultBitbucketBaseURL)); simpl;
    (split; [try reflexivity; discriminate | split; [lia | repeat constructor]]).
Qed.

Lemma securityWarnings_Stderr (s : ServerCmd) (c : UserConfig) :
  Forall (fun e => is_Stderr e = true) (securityWarnings s c).
Proof.
  unfold securityWarnings.
  repeat match goal with |- context [if ?b then _ else _] => destruct b end;
    simpl; repeat constructor.
Qed.

Lemma setDefaults_fields (c : UserConfig) :
  Port (setDefaults c) <> 0%Z /\ CustomStageNames (setDefaults c) <> None.
Proof.
  unfold setDefaults. simpl. split.
  - case_bool_decide; [discriminate | assumption].
  - destruct (CustomStageNames c); [case_bool_decide|]; discriminate.
Qed.

Lemma setAtlantisURL_result (c c' : UserConfig) :
  setAtlantisURL c = (c', None) ->
  AtlantisURL c' <> EmptyString
  /\ (c' = c \/ exists v, c' = with_AtlantisURL v c).
Proof.
  unfold setAtlantisURL. case_bool_decide as Hblank.
  - destruct os_Hostname as [hostname [e|]]; [discriminate|].
    intros [= <-]. split; [discriminate | right; eauto].
  - intros [= <-]. split; [assumption | now left].
Qed.

Lemma setDataDir_result (c c' : UserConfig) :
  setDataDir c = (c', None) -> exists v, c' = with_DataDir v c.
Proof.
  unfold setDataDir.
  destruct (if strings.HasPrefix (DataDir c) "~/" then _ else _) as [path [e|]];
    [discriminate|].
  destruct (filepath_Abs path) as [final [e|]]; [discriminate|].
  intros [= <-]. eauto.
Qed.

Lemma run_cases (s : ServerCmd) :
  (exists e, run s = (Some e, []))
  \/ exists c0 c1 c2,
      Unmarshal (Viper_ s) = (c0, None)
      /\ validate (setDefaults c0) = None
      /\ setAtlantisURL (setDefaults c0) = (c1, None)
      /\ setDataDir c1 = (c2, None)
      /\ let config := {| server.AllowForkPRsFlag := AllowForkPRsFlag;
                          server.AllowRepoConfigFlag := AllowRepoConfigFlag;
                          server.AtlantisVersion := AtlantisVersion_ s |} in
         (exists e,
             NewServer (ServerCreator_ s) (trimAtSymbolFromUsers c2) config = inr e
             /\ run s = (Some (withMessage e "initializing server"),
                         (securityWarnings s c2
                            ++ [NewServerCall (trimAtSymbolFromUsers c2) config])%list))
         \/ (exists srv,
                NewServer (ServerCreator_ s) (trimAtSymbolFromUsers c2) config = inl srv
                /\ run s = (Start srv,
                            (securityWarnings s c2
                               ++ [NewServerCall (trimAtSymbolFromUsers c2) config;
                                   StartCall])%list)).
Proof.
  unfold run.
  destruct (Unmarshal (Viper_ s)) as [c0 [e|]]; [left; eauto|].
  destruct (validate (setDefaults c0)) as [e|] eqn:Hvalid; [left; eauto|].
  destruct (setAtlantisURL (setDefaults c0)) as [c1 [e|]] eqn:Hurl; [left; eauto|].
  destruct (setDataDir c1) as [c2 [e|]] eqn:Hdir; [left; eauto|].
  right. exists c0, c1, c2. repeat split; try assumption. cbv zeta.
  destruct (NewServer _ _ _) as [srv|e]; [right | left]; eauto.
Qed.

(** X12. [run] creates the server only with a configuration that went
    through [setDefaults] and [validate]: the configuration handed to
    [NewServer] has a known log level, a non-empty repository whitelist
    without [://], both SSL files or neither, a non-empty Atlantis URL, a
    port other than 0 and stage names that are not nil; and when
    [validate] rejects the configuration after the defaults, [run] returns
    that error and causes no event. *)
Theorem server_created_after_validation (s : ServerCmd) :
  (forall userConfig config,
      NewServerCall userConfig config ∈ snd (run s) ->
      config = {| server.AllowForkPRsFlag := "allow-fork-prs";
                  server.AllowRepoConfigFlag := "allow-repo-config";
                  server.AtlantisVersion := AtlantisVersion_ s |}
      /\ LogLevel userConfig ∈ ["debug"; "info"; "warn"; "error"]
      /\ RepoWhitelist userConfig <> EmptyString
      /\ strings.Contains (RepoWhitelist userConfig) "://" = false
      /\ (SSLKeyFile userConfig = EmptyString <-> SSLCertFile userConfig = EmptyString)
      /\ AtlantisURL userConfig <> EmptyString
      /\ Port userConfig <> 0%Z
      /\ CustomStageNames userConfig <> None)
  /\ (forall c0 e,
         Unmarshal (Viper_ s) = (c0, None) ->
         validate (setDefaults c0) = Some e ->
         run s = (Some e, [])).
Proof.
  split.
  - intros userConfig config Hin.
    destruct (run_cases s) as [(e & Hrun)|(c0 & c1 & c2 & _ & Hvalid & Hurl & Hdir & Hcases)].
    { rewrite Hrun in Hin. inversion Hin. }
    assert (NewServerCall userConfig config
            = NewServerCall (trimAtSymbolFromUsers c2)
                {| server.AllowForkPRsFlag := AllowForkPRsFlag;
                   server.AllowRepoConfigFlag := AllowRepoConfigFlag;
                   server.AtlantisVersion := AtlantisVersion_ s |}) as Hcall.
    { pose proof (securityWarnings_Stderr s c2) as Hwarn.
      cbv zeta in Hcases.
      destruct Hcases as [(e & _ & Hrun)|(srv & _ & Hrun)]; rewrite Hrun in Hin; simpl in Hin;
        apply elem_of_app in Hin as [Hin|Hin].
      - rewrite Forall_forall in Hwarn. apply Hwarn in Hin. discriminate.
      - now apply list_elem_of_singleton in Hin.
      - rewrite Forall_forall in Hwarn. apply Hwarn in Hin. discriminate.
      - apply elem_of_cons in Hin as [Hin|Hin]; [assumption|].
        apply list_elem_of_singleton in Hin. discriminate. }
    injection Hcall as -> ->.
    apply validate_None_iff in Hvalid
      as (Hlog & Hssl & _ & _ & _ & _ & Hwl & Hscheme & _ & _ & _).
    apply setAtlantisURL_result in Hurl as [Hnonempty Hc1].
    apply setDataDir_result in Hdir as [dir ->].
    pose proof (setDefaults_fields c0) as (Hport & Hstages).
    split; [reflexivity|].
    destruct Hc1 as [->|[v ->]]; simpl in *; repeat split; try assumption; tauto.
  - intros c0 e Hdecode Hvalid. unfold run. rewrite Hdecode, Hvalid. reflexivity.
Qed.

End ServerRun.

(** ** The server command: output, URL, data directory and flags *)

Section ServerOutput.
Import Go server cmd cmd_props.
Context `{E : Env} `{L : Lib}.

Lemma securityWarnings_silent (s : ServerCmd) (c : UserConfig) :
  SilenceOutput s = true -> securityWarnings s c = [].
Proof.
  intros Hsilent. unfold securityWarnings. rewrite Hsilent. simpl.
  rewrite !andb_false_r. reflexivity.
Qed.

Lemma run_silent (s : ServerCmd) :
  SilenceOutput s = true -> Forall (fun e => is_Stderr e = false) (snd (run s)).
Proof.
  intros Hsilent.
  destruct (run_cases s) as [(e & Hrun)|(c0 & c1 & c2 & _ & _ & _ & _ & Hcases)].
  - rewrite Hrun. constructor.
  - cbv zeta in Hcases.
    destruct Hcases as [(e & _ & Hrun)|(srv & _ & Hrun)];
      rewrite Hrun, (securityWarnings_silent s c2 Hsilent); simpl; repeat constructor.
Qed.

(** X13. The command's [RunE] returns the error of [run].  With
    [SilenceOutput] set it writes nothing to standard error; otherwise an
    error of [run] is written last, in red, after the events of [run]. *)
Theorem RunE_reports_errors {C : Type} (s : ServerCmd) (cmd : C) (args : list string) :
  fst (RunE s cmd args) = fst (run s)
  /\ (SilenceOutput s = true ->
      Forall (fun e => is_Stderr e = false) (snd (RunE s cmd args)))
  /\ (SilenceOutput s = false ->
      forall e, fst (run s) = Some e ->
      snd (RunE s cmd args)
      = (snd (run s) ++ [Stderr (redTermStart +:+ "[ERROR] " +:+ Error e +:+ redTermEnd
                                 +:+ newline +:+ newline)])%list).
Proof.
  unfold RunE, withErrPrint. pose proof (run_silent s) as Hquiet.
  destruct (run s) as [[e|] events]; simpl in *.
  - destruct (SilenceOutput s); simpl.
    + split; [reflexivity|]. split; [assumption | discriminate].
    + split; [reflexivity|]. split; [discriminate|]. intros _ e' [= <-]. reflexivity.
  - split; [reflexivity|]. split; [assumption | discriminate].
Qed.

(** X14. [setAtlantisURL] keeps a URL that was given and then does not
    depend on the host name; for an empty URL it builds
    [http://<hostname>:<port>] with the port [setDefaults] left, which is
    4141 when none was given; when it fails it leaves the configuration as
    it was. *)
Theorem atlantis_url_default (c : UserConfig) :
  (AtlantisURL c <> EmptyString -> setAtlantisURL (setDefaults c) = (setDefaults c, None))
  /\ (AtlantisURL c = EmptyString ->
      forall hostname, os_Hostname = (hostname, None) ->
      setAtlantisURL (setDefaults c)
      = (with_AtlantisURL ("http://" +:+ hostname +:+ ":"
                           +:+ (if bool_decide (Port c = 0%Z) then "4141" else pretty (Port c)))
           (setDefaults c), None))
  /\ (forall c' e, setAtlantisURL c = (c', Some e) -> c' = c).
Proof.
  split; [|split].
  - intros Hgiven. unfold setAtlantisURL. simpl.
    now rewrite bool_decide_eq_false_2.
  - intros Hblank hostname Hhost. unfold setAtlantisURL. simpl.
    rewrite bool_decide_eq_true_2 by assumption. rewrite Hhost.
    case_bool_decide; reflexivity.
  - intros c' e. unfold setAtlantisURL. case_bool_decide; [|discriminate].
    destruct os_Hostname as [hostname [err|]]; [|discriminate].
    now intros [= <- _].
Qed.

(** X15. [setDataDir] leaves the configuration as it was when it fails,
    and the error is the cause wrapped under [determining home directory]
    or [making data-dir absolute].  A data directory left empty becomes,
    after [setDefaults], the absolute path of the expansion of
    [~/.atlantis].  A data directory that is the tilde alone is not
    expanded: it goes to [filepath.Abs] as it is. *)
Theorem data_dir_resolution (c : UserConfig) :
  (forall c' e,
      setDataDir c = (c', Some e) ->
      c' = c
      /\ exists cause,
          e = withMessage cause "determining home directory"
          \/ e = withMessage cause "making data-dir absolute")
  /\ (DataDir c = EmptyString ->
      forall home path,
        homedir_Expand "~/.atlantis" = (home, None) ->
        filepath_Abs home = (path, None) ->
        setDataDir (setDefaults c) = (with_DataDir path (setDefaults c), None))
  /\ (DataDir c = "~" ->
      forall path,
        filepath_Abs "~" = (path, None) ->
        setDataDir c = (with_DataDir path c, None)).
Proof.
  split; [|split].
  - intros c' e. unfold setDataDir.
    destruct (if strings.HasPrefix (DataDir c) "~/" then _ else _) as [path [err|]].
    + intros [= <- <-]. eauto.
    + destruct (filepath_Abs path) as [final [err|]]; [|discriminate].
      intros [= <- <-]. eauto.
  - intros Hblank home path Hhome Habs. unfold setDataDir. simpl.
    rewrite bool_decide_eq_true_2 by assumption. unfold DefaultDataDir.
    change (strings.HasPrefix "~/.atlantis" "~/") with true. cbv iota.
    rewrite Hhome, Habs. reflexivity.
  - intros Htilde path Habs. unfold setDataDir. rewrite Htilde.
    change (strings.HasPrefix "~" "~/") with false. cbv iota.
    rewrite Habs. reflexivity.
Qed.

(** X16. The loops of [Init] register every flag-name constant exactly
    once: the registered names have no duplicate (the flag set would panic
    on one) and are the declared constants, in some order. *)
Theorem every_flag_registered_once :
  NoDup (cmd.Name <$> Init_flags)
  /\ cmd.Name <$> Init_flags ≡ₚ flagNames.
Proof.
  assert (NoDup (cmd.Name <$> Init_flags)) as Hnodup.
  { apply (bool_decide_unpack _). vm_compute. exact I. }
  split; [exact Hnodup|].
  apply NoDup_Permutation; [exact Hnodup | |].
  - apply (bool_decide_unpack _). vm_compute. exact I.
  - intros name. split; intros Hin.
    + revert name Hin. apply Forall_forall. apply (bool_decide_unpack _). vm_compute. exact I.
    + revert name Hin. apply Forall_forall. apply (bool_decide_unpack _). vm_compute. exact I.
Qed.

End ServerOutput.

Section DocumentedDefaults.
Import Go server cmd cmd_props.
Context `{E : Env}.

(** X17. The defaults the usage texts document are the defaults
    [setDefaults] applies to an empty configuration: for the data
    directory, the GitHub and GitLab hostnames, the Bitbucket base URL, the
    log level, the team whitelist, the repository configuration name, the
    wake word and the port; and no other string flag documents a
    default. *)
Theorem documented_defaults_are_applied :
  documentedString DataDirFlag = Some (DataDir (setDefaults zeroUserConfig))
  /\ documentedString GHHostnameFlag = Some (GithubHostname (setDefaults zeroUserConfig))
  /\ documentedString GitlabHostnameFlag = Some (GitlabHostname (setDefaults zeroUserConfig))
  /\ documentedString BitbucketBaseURLFlag
     = Some (BitbucketBaseURL (setDefaults zeroUserConfig))
  /\ documentedString LogLevelFlag = Some (LogLevel (setDefaults zeroUserConfig))
  /\ documentedString GHTeamWhitelistFlag
     = Some (GithubTeamWhitelist (setDefaults zeroUserConfig))
  /\ documentedString RepoConfigFlag = Some (RepoConfig (setDefaults zeroUserConfig))
  /\ documentedString WakeWordFlag = Some (WakeWord (setDefaults zeroUserConfig))
  /\ documentedInt PortFlag = Some (Port (setDefaults zeroUserConfig))
  /\ Forall (fun f =>
               s_name f ∈ [DataDirFlag; GHHostnameFlag; GitlabHostnameFlag; BitbucketBaseURLFlag;
                           LogLevelFlag; GHTeamWhitelistFlag; RepoConfigFlag; WakeWordFlag]
               \/ s_defaultValue f = EmptyString) stringFlags.
Proof.
  repeat split; try (vm_compute; reflexivity).
  unfold stringFlags.
  repeat (apply Forall_cons; split;
          [first [right; reflexivity | left; simpl; set_solver]|]).
  apply Forall_nil. exact I.
Qed.

End DocumentedDefaults.

(** * Worked instances *)

Module Instances.
Import Go Sample.

(** The project of [Sample.references_custom] references [custom], which
    the mapping lacks: validation reports that name. *)
Lemma undefined_workflow_reference_fails_witness :
  Sample.custom_project ∈ raw.Projects Sample.references_custom
  /\ raw.Workflow_ref Sample.custom_project = Some "custom"
  /\ raw.Workflows Sample.references_custom !! "custom" = None
  /\ exists offender missing,
      offender ∈ raw.Projects Sample.references_custom
      /\ raw.Workflow_ref offender = Some missing
      /\ raw.Workflows Sample.references_custom !! missing = None
      /\ yaml.validateWorkflows (L := Sample.lib) Sample.references_custom
         = Some (errorString ("workflow " +:+ Sample.Quote missing +:+ " is not defined")).
Proof.
  assert (Sample.custom_project ∈ raw.Projects Sample.references_custom) as Hin
    by (simpl; left).
  assert (raw.Workflows Sample.references_custom !! "custom" = None) as Hnone
    by (vm_compute; reflexivity).
  split; [exact Hin|]. split; [reflexivity|]. split; [exact Hnone|].
  exact (proj1 (undefined_workflow_reference_fails (L := Sample.lib) Sample.references_custom)
           Sample.custom_project "custom" Hin eq_refl Hnone).
Defined.

(** [Sample.twice_staging] assigns [staging] to two projects of different
    directories and workspaces. *)
Lemma duplicate_project_names_fail_witness :
  config_props.assigned_twice (valid.Projects Sample.twice_staging) "staging"
  /\ exists dup,
      config_props.assigned_twice (valid.Projects Sample.twice_staging) dup
      /\ yaml.validateProjectNames (L := Sample.lib) Sample.twice_staging
         = Some (errorString ("found two or more projects with name "
                              +:+ Sample.Quote dup +:+ "; project names must be unique")).
Proof.
  assert (config_props.assigned_twice (valid.Projects Sample.twice_staging) "staging") as Hdup.
  { eexists 0, 1, _, _. repeat split; [lia | reflexivity..]. }
  split; [exact Hdup|].
  exact (proj1 (duplicate_project_names_fail (L := Sample.lib) Sample.twice_staging)
           "staging" Hdup).
Defined.

(** A document whose projects have no directory and share a name: the
    schema validation fails and its error is the one returned, although the
    name check on the transformed configuration would fail as well. *)
Lemma parseAndValidate_stage_order_witness :
  yaml.yaml_UnmarshalStrict Sample.blank_dirs_document = (Sample.blank_dirs, None)
  /\ yaml.raw_Validate "yaml" Sample.blank_dirs
     = Some (libError "projects: dir: cannot be blank.")
  /\ yaml.validateProjectNames (L := Sample.lib) (yaml.raw_ToValid Sample.blank_dirs) <> None
  /\ yaml.parseAndValidate (L := Sample.lib) Sample.blank_dirs_document "json"
     = ((valid.zero, Some (libError "projects: dir: cannot be blank.")), "yaml").
Proof.
  assert (yaml.yaml_UnmarshalStrict Sample.blank_dirs_document = (Sample.blank_dirs, None))
    as Hparse by (vm_compute; reflexivity).
  assert (yaml.raw_Validate "yaml" Sample.blank_dirs
          = Some (libError "projects: dir: cannot be blank.")) as Hschema
    by (vm_compute; reflexivity).
  split; [exact Hparse|]. split; [exact Hschema|]. split; [vm_compute; discriminate|].
  exact (proj1 (proj2 (parseAndValidate_stage_order (L := Sample.lib)
                         Sample.blank_dirs_document "json") _ Hparse) _ Hschema).
Defined.

(** The same document: the configuration returned with the error is the
    zero value. *)
Lemma error_returns_zero_config_witness :
  yaml.parseAndValidate (L := Sample.lib) Sample.blank_dirs_document "json"
  = ((valid.zero, Some (libError "projects: dir: cannot be blank.")), "yaml")
  /\ fst (fst (yaml.parseAndValidate (L := Sample.lib) Sample.blank_dirs_document "json"))
     = valid.zero.
Proof.
  assert (yaml.parseAndValidate (L := Sample.lib) Sample.blank_dirs_document "json"
          = ((fst (fst (yaml.parseAndValidate (L := Sample.lib)
                          Sample.blank_dirs_document "json")),
              Some (libError "projects: dir: cannot be blank.")), "yaml")) as Hrun
    by (vm_compute; reflexivity).
  split; [vm_compute; reflexivity|].
  exact (proj1 (error_returns_zero_config (L := Sample.lib) (D := Sample.yaml_deps))
           _ _ _ _ _ Hrun).
Defined.

(** In a repository without files the configuration file is absent;
    where the file exists and may not be read, the read error is wrapped;
    where the file is read and is no known document, the decoding error is
    wrapped. *)
Lemma missing_config_is_distinguished_witness :
  (Sample.no_files (yaml.configFilePath (L := Sample.lib) "/repo" "atlantis.yaml") = LFail ENOENT
   /\ yaml.HasConfigFile (L := Sample.lib) Sample.no_files "/repo" "atlantis.yaml" = (false, None)
   /\ yaml.ReadConfig (L := Sample.lib) Sample.no_files "/repo" "atlantis.yaml" "json"
      = ((valid.zero, Some (PathError "open" "/repo/atlantis.yaml" ENOENT)), "json")
   /\ os_IsNotExist (Some (PathError "open" "/repo/atlantis.yaml" ENOENT)) = true)
  /\ ((exists data, Sample.unreadable_config "/repo/atlantis.yaml" = LFile data false)
      /\ exists cause,
          ioutil_ReadFile Sample.unreadable_config "/repo/atlantis.yaml" = ([], Some cause)
          /\ yaml.ReadConfig (L := Sample.lib) Sample.unreadable_config
               "/repo" "atlantis.yaml" "json"
             = ((valid.zero, Some (withMessage cause "unable to read atlantis.yaml file")),
                "json")
          /\ os_IsNotExist (Some (withMessage cause "unable to read atlantis.yaml file"))
             = false)
  /\ (Sample.garbled_config "/repo/atlantis.yaml" = LFile [] true
      /\ yaml.parseAndValidate (L := Sample.lib) [] "json"
         = ((valid.zero, Some (libError "yaml: unmarshal errors")), "json")
      /\ yaml.ReadConfig (L := Sample.lib) Sample.garbled_config "/repo" "atlantis.yaml" "json"
         = ((valid.zero,
             Some (withMessage (libError "yaml: unmarshal errors") "parsing atlantis.yaml")),
            "json")
      /\ os_IsNotExist
           (Some (withMessage (libError "yaml: unmarshal errors") "parsing atlantis.yaml"))
         = false).
Proof.
  split; [|split].
  - split; [reflexivity|].
    exact (proj1 (missing_config_is_distinguished (L := Sample.lib) (D := Sample.yaml_deps)
                    Sample.no_files "/repo" "atlantis.yaml" "json") eq_refl).
  - assert (exists data, Sample.unreadable_config "/repo/atlantis.yaml" = LFile data false)
      as Hunreadable by (exists []; reflexivity).
    split; [exact Hunreadable|].
    exact (proj1 (proj2 (missing_config_is_distinguished (L := Sample.lib)
                           (D := Sample.yaml_deps) Sample.unreadable_config
                           "/repo" "atlantis.yaml" "json"))
             (or_intror (or_introl Hunreadable))).
  - assert (yaml.parseAndValidate (L := Sample.lib) [] "json"
            = ((valid.zero, Some (libError "yaml: unmarshal errors")), "json")) as Hparse
      by (vm_compute; reflexivity).
    split; [reflexivity|]. split; [exact Hparse|].
    exact (proj1 (proj2 (proj2 (missing_config_is_distinguished (L := Sample.lib)
                                  (D := Sample.yaml_deps) Sample.garbled_config
                                  "/repo" "atlantis.yaml" "json")))
             [] valid.zero (libError "yaml: unmarshal errors") "json" eq_refl Hparse).
Defined.

(** Apply in a repository without files: no plan, no executor call. *)
Lemma apply_without_plan_fails_witness :
  ((exists e, Sample.no_files "/repo/default.tfplan" = LFail e)
   \/ Sample.no_files "/repo/default.tfplan" = LDir)
  /\ runtime.Run Sample.succeeding Sample.no_files Sample.plain_context ["-lock=false"] "/repo" []
     = ((EmptyString,
         Some (errorString ("no plan found at path " +:+ Sample.Quote "."
                 +:+ " and workspace " +:+ Sample.Quote "default"
                 +:+ " – did you run plan?"))), []).
Proof.
  assert ((exists e, Sample.no_files "/repo/default.tfplan" = LFail e)
          \/ Sample.no_files "/repo/default.tfplan" = LDir) as Hmissing
    by (left; exists ENOENT; reflexivity).
  split; [exact Hmissing|].
  exact (apply_without_plan_fails (L := Sample.lib) (D := Sample.runtime_deps)
           Sample.succeeding Sample.no_files Sample.plain_context ["-lock=false"] "/repo" []
           Hmissing).
Defined.

(** Apply with the plan in place: one executor call with the fixed flags,
    the extra argument, the comment argument and the quoted plan path, then
    the log line; the executor's answer is returned. *)
Lemma apply_with_plan_runs_executor_witness :
  Sample.only_plan "/repo/default.tfplan" = LFile [] true
  /\ runtime.Run Sample.succeeding Sample.only_plan Sample.plain_context
       ["-lock=false"] "/repo" []
     = (("Apply complete!", None),
        [ runtime.ExecCall Sample.logger "/repo"
            ["apply"; "-input=false"; "-no-color"; "-lock=false"; "-target=a";
             Sample.Quote "/repo/default.tfplan"] None "default";
          runtime.LogInfo Sample.logger "apply successful" ]).
Proof.
  split; [reflexivity|].
  destruct (apply_with_plan_runs_executor (L := Sample.lib) (D := Sample.runtime_deps)
              Sample.succeeding Sample.only_plan Sample.plain_context ["-lock=false"]
              "/repo" [] [] true eq_refl) as (out & tfErr & Hcall & HRun).
  rewrite HRun. simpl in Hcall. injection Hcall as <- <-. reflexivity.
Defined.

(** C9, as the specification words it, fails for an engine whose default
    version is 0.11.10: for a context without project configuration and
    with the plan in place, the one executor call of [Run] carries the nil
    version, not 0.11.10. *)
Lemma version_fallback_ignores_engine_default :
  runtime.ProjectConfig Sample.plain_context = None
  /\ runtime.Run (L := Sample.lib) (D := Sample.runtime_deps) Sample.succeeding
       Sample.only_plan Sample.plain_context [] "/repo" []
     = (("Apply complete!", None),
        [ runtime.ExecCall Sample.logger "/repo"
            ["apply"; "-input=false"; "-no-color"; "-target=a";
             Sample.Quote "/repo/default.tfplan"] None "default";
          runtime.LogInfo Sample.logger "apply successful" ])
  /\ ~ runtime_props.passes_declared_or_default (L := Sample.lib) (D := Sample.runtime_deps)
        (Some "0.11.10").
Proof.
  assert (runtime.Run (L := Sample.lib) (D := Sample.runtime_deps) Sample.succeeding
            Sample.only_plan Sample.plain_context [] "/repo" []
          = (("Apply complete!", None),
             [ runtime.ExecCall Sample.logger "/repo"
                 ["apply"; "-input=false"; "-no-color"; "-target=a";
                  Sample.Quote "/repo/default.tfplan"] None "default";
               runtime.LogInfo Sample.logger "apply successful" ])) as HRun
    by (vm_compute; reflexivity).
  split; [reflexivity|]. split; [exact HRun|].
  intros Hclaim.
  specialize (Hclaim Sample.succeeding Sample.only_plan Sample.plain_context [] "/repo"
                Sample.logger "/repo"
                ["apply"; "-input=false"; "-no-color"; "-target=a";
                 Sample.Quote "/repo/default.tfplan"] None "default").
  rewrite HRun in Hclaim. simpl in Hclaim.
  assert (None = Some "0.11.10") as Habsurd by (apply Hclaim; left).
  discriminate.
Qed.

(** A project that pins version 0.11.10: that version goes to the
    executor. *)
Lemma apply_version_selection_witness :
  exists new,
    snd (runtime.Run Sample.succeeding Sample.only_plan Sample.pinned_context [] "/repo" [])
    = ([] ++ new)%list
    /\ (forall log p args v ws,
          runtime.ExecCall log p args v ws ∈ new -> v = Some "0.11.10")
    /\ ((exists data readable, Sample.only_plan "/repo/default.tfplan" = LFile data readable) ->
        exists log p args ws, runtime.ExecCall log p args (Some "0.11.10") ws ∈ new).
Proof.
  exact (apply_version_selection (L := Sample.lib) (D := Sample.runtime_deps)
           Sample.succeeding Sample.only_plan Sample.pinned_context [] "/repo" []).
Defined.

(** Pull request 7 has planned on the tuple; pull request 9 then tries
    three times, around its own releases, and is denied each time, while 7
    is confirmed. *)
Lemma lock_held_excludes_others_witness :
  locking.holder Sample.tuple (snd (locking.run Sample.plan_by_7 [])) = Some 7
  /\ forallb (fun op => negb (locking.gives_up Sample.tuple 7 op)) Sample.contention = true
  /\ fst (locking.run Sample.contention (snd (locking.run Sample.plan_by_7 [])))
     = [ locking.RAcquire (locking.DeniedHeldByOther 7);
         locking.RAcquire locking.AlreadyHeldBySelf;
         locking.RRelease locking.NotHeld;
         locking.RReleaseAll;
         locking.RAcquire (locking.DeniedHeldByOther 7) ]
  /\ (Forall2 (locking.answer_while_held Sample.tuple 7) Sample.contention
        (fst (locking.run Sample.contention (snd (locking.run Sample.plan_by_7 []))))
      /\ locking.holder Sample.tuple
           (snd (locking.run Sample.contention (snd (locking.run Sample.plan_by_7 [])))) = Some 7
      /\ (forall any, locking.at_most_one_lock (snd (locking.run any [])))).
Proof.
  assert (locking.holder Sample.tuple (snd (locking.run Sample.plan_by_7 [])) = Some 7)
    as Hheld by (vm_compute; reflexivity).
  assert (forallb (fun op => negb (locking.gives_up Sample.tuple 7 op)) Sample.contention = true)
    as Hkeep by (vm_compute; reflexivity).
  split; [exact Hheld|]. split; [exact Hkeep|]. split; [vm_compute; reflexivity|].
  exact (lock_held_excludes_others Sample.plan_by_7 Sample.contention Sample.tuple 7 Hheld Hkeep).
Defined.

(** A configuration file that exists and may not be read. *)
Lemma present_but_unreadable_witness :
  Sample.unreadable_config (yaml.configFilePath (L := Sample.lib) "/repo" "atlantis.yaml")
  = LFile [] false
  /\ yaml.HasConfigFile (L := Sample.lib) Sample.unreadable_config "/repo" "atlantis.yaml"
     = (true, None)
  /\ yaml.ReadConfig (L := Sample.lib) Sample.unreadable_config "/repo" "atlantis.yaml" "json"
     = ((valid.zero,
         Some (withMessage (PathError "open" "/repo/atlantis.yaml" EACCES)
                 "unable to read atlantis.yaml file")), "json").
Proof.
  split; [reflexivity|].
  exact (proj2 (present_but_unreadable (L := Sample.lib) (D := Sample.yaml_deps)
                  Sample.unreadable_config "/repo" "atlantis.yaml" "json") [] eq_refl).
Defined.

(** The GitHub user [@] with a token passes validation, and is no user
    at all once trimmed. *)
Lemma lone_at_user_vanishes_witness :
  cmd.validate (E := Sample.env) (L := Sample.lib) Sample.at_only = None
  /\ server.GithubUser (cmd.trimAtSymbolFromUsers Sample.at_only) = EmptyString
  /\ server.GitlabUser (cmd.trimAtSymbolFromUsers Sample.at_only) = EmptyString
  /\ server.BitbucketUser (cmd.trimAtSymbolFromUsers Sample.at_only) = EmptyString
  /\ cmd.validate (E := Sample.env) (L := Sample.lib) (cmd.trimAtSymbolFromUsers Sample.at_only)
     = Some cmd.vcsErr.
Proof.
  assert (cmd.validate (E := Sample.env) (L := Sample.lib) Sample.at_only = None) as Hvalid
    by (vm_compute; reflexivity).
  split; [exact Hvalid|].
  exact (lone_at_user_vanishes (E := Sample.env) (L := Sample.lib) Sample.at_only
           Hvalid eq_refl eq_refl eq_refl).
Defined.

(** The command of [Sample.server_cmd] creates its server with the
    defaults filled in. *)
Lemma server_created_after_validation_witness :
  exists userConfig config,
    cmd.NewServerCall userConfig config
      ∈ snd (cmd.run (E := Sample.env) (L := Sample.lib) Sample.server_cmd)
    /\ server.GithubUser userConfig = "bot"
    /\ server.AtlantisURL userConfig = "http://atlantis.corp:4141"
    /\ server.DataDir userConfig = "/home/atlantis/.atlantis"
    /\ (config = {| server.AllowForkPRsFlag := "allow-fork-prs";
                    server.AllowRepoConfigFlag := "allow-repo-config";
                    server.AtlantisVersion := "0.5.0" |}
        /\ server.LogLevel userConfig ∈ ["debug"; "info"; "warn"; "error"]
        /\ server.RepoWhitelist userConfig <> EmptyString
        /\ strings.Contains (server.RepoWhitelist userConfig) "://" = false
        /\ (server.SSLKeyFile userConfig = EmptyString
            <-> server.SSLCertFile userConfig = EmptyString)
        /\ server.AtlantisURL userConfig <> EmptyString
        /\ server.Port userConfig <> 0%Z
        /\ server.CustomStageNames userConfig <> None).
Proof.
  pose (events := snd (cmd.run (E := Sample.env) (L := Sample.lib) Sample.server_cmd)).
  assert (exists userConfig config rest,
             events = [cmd.Stderr rest; cmd.NewServerCall userConfig config; cmd.StartCall]
             /\ server.GithubUser userConfig = "bot"
             /\ server.AtlantisURL userConfig = "http://atlantis.corp:4141"
             /\ server.DataDir userConfig = "/home/atlantis/.atlantis")
    as (userConfig & config & rest & Hevents & Huser & Hurl & Hdir).
  { vm_compute. do 3 eexists. split; [reflexivity|]. repeat split. }
  exists userConfig, config.
  assert (cmd.NewServerCall userConfig config
            ∈ snd (cmd.run (E := Sample.env) (L := Sample.lib) Sample.server_cmd)) as Hin.
  { fold events. rewrite Hevents. right. left. }
  split; [exact Hin|]. split; [exact Huser|]. split; [exact Hurl|]. split; [exact Hdir|].
  exact (proj1 (server_created_after_validation (E := Sample.env) (L := Sample.lib)
                  Sample.server_cmd) userConfig config Hin).
Defined.

(** Without a URL and a port, on the host [atlantis.corp]. *)
Lemma atlantis_url_default_witness :
  server.AtlantisURL Sample.github_only = EmptyString
  /\ cmd.os_Hostname (Env := Sample.env) = ("atlantis.corp", None)
  /\ cmd.setAtlantisURL (E := Sample.env) (cmd.setDefaults (E := Sample.env) Sample.github_only)
     = (cmd.with_AtlantisURL "http://atlantis.corp:4141"
          (cmd.setDefaults (E := Sample.env) Sample.github_only), None).
Proof.
  split; [reflexivity|]. split; [reflexivity|].
  exact (proj1 (proj2 (atlantis_url_default (E := Sample.env) Sample.github_only))
           eq_refl "atlantis.corp" eq_refl).
Defined.

(** Without a data directory, in the home directory [/home/atlantis]. *)
Lemma data_dir_resolution_witness :
  server.DataDir Sample.github_only = EmptyString
  /\ cmd.setDataDir (E := Sample.env) (cmd.setDefaults (E := Sample.env) Sample.github_only)
     = (cmd.with_DataDir "/home/atlantis/.atlantis"
          (cmd.setDefaults (E := Sample.env) Sample.github_only), None).
Proof.
  split; [reflexivity|].
  exact (proj1 (proj2 (data_dir_resolution (E := Sample.env) Sample.github_only))
           eq_refl "/home/atlantis/.atlantis" "/home/atlantis/.atlantis" eq_refl eq_refl).
Defined.

End Instances.
